(** * pyforestplot.graph_utils: layout, annotation and row decoration

    A shallow embedding of [src/pyforestplot/graph_utils.py].

    The plotting surface (a Matplotlib [Axes]) is a record that holds what
    the functions of the module read and write: the axis limits, the labels
    of the major y ticks, the tick padding, the y-axis label, and the text
    and band artists added so far.  Every function threads the axes
    explicitly and returns it, as the Python code returns [ax].

    Python exceptions are values of an error monad.  Floats are exact
    rationals ([Q]): the module only compares, negates and scales them.
    Strings are ASCII strings. *)

From Stdlib Require Import QArith.
From Stdlib Require Import Ascii.
From stdpp Require Import base option list gmap strings pretty.

Open Scope string_scope.
Open Scope Z_scope.

(** ** Python values and exceptions *)

Module Py.

Inductive exc : Set := KeyError | ValueError | IndexError | AttributeError.

#[global] Instance exc_eq_dec : EqDecision exc.
Proof. solve_decision. Defined.

Inductive result (A : Type) : Type :=
| Ok (a : A)
| Raise (e : exc).
Arguments Ok {A} a.
Arguments Raise {A} e.

Definition bind {A B} (m : result A) (k : A -> result B) : result B :=
  match m with
  | Ok a => k a
  | Raise e => Raise e
  end.

(** [try: body  except e: handler] *)
Definition try_except {A} (body : result A) (e : exc) (handler : result A)
  : result A :=
  match body with
  | Ok a => Ok a
  | Raise e' => if decide (e' = e) then handler else Raise e'
  end.

(** A cell of a data frame or a keyword argument: [None], a missing
    value, a string or an integer. *)
Inductive val : Type :=
| VNone
| VNaN
| VStr (s : string)
| VInt (z : Z).

#[global] Instance val_eq_dec : EqDecision val.
Proof. solve_decision. Defined.

(** [pd.isna]: [None] and [NaN] are the missing values. *)
Definition isna (v : val) : bool :=
  match v with VNone | VNaN => true | _ => false end.

(** *** [str] methods *)

(** The empty string literal. *)
Definition empty : string := EmptyString.

Definition ascii_lower (c : ascii) : ascii :=
  let n := nat_of_ascii c in
  if ((65 <=? n) && (n <=? 90))%nat then ascii_of_nat (n + 32) else c.

(** The ASCII characters [str.isspace] accepts. *)
Definition ascii_isspace (c : ascii) : bool :=
  let n := nat_of_ascii c in
  (((9 <=? n) && (n <=? 13)) || ((28 <=? n) && (n <=? 32)))%nat.

Definition str_lower (s : string) : string :=
  String.string_of_list_ascii (List.map ascii_lower (String.list_ascii_of_string s)).

Fixpoint lstrip_chars (l : list ascii) : list ascii :=
  match l with
  | c :: l' => if ascii_isspace c then lstrip_chars l' else l
  | [] => []
  end.

Definition str_strip (s : string) : string :=
  String.string_of_list_ascii
    (rev (lstrip_chars (rev (lstrip_chars (String.list_ascii_of_string s))))).

(** Attribute lookup of [lower] on a value: only a [str] has it. *)
Definition lower (v : val) : result string :=
  match v with
  | VStr s => Ok (str_lower s)
  | _ => Raise AttributeError
  end.

(** *** [**kwargs] *)

Definition kwargs_get (kwargs : gmap string val) (key : string) (default : val) : val :=
  match kwargs !! key with
  | Some v => v
  | None => default
  end.

(** *** Iteration helpers *)

(** [enumerate(l)], counting from [start]. *)
Fixpoint enumerate_from {A} (start : Z) (l : list A) : list (Z * A) :=
  match l with
  | [] => []
  | a :: l' => (start, a) :: enumerate_from (start + 1) l'
  end.

Definition enumerate {A} (l : list A) : list (Z * A) := enumerate_from 0 l.

(** [for a in l: acc = body(a, acc)], stopping at the first exception. *)
Fixpoint for_each {A S} (l : list A) (body : A -> S -> result S) (acc : S)
  : result S :=
  match l with
  | [] => Ok acc
  | a :: l' => bind (body a acc) (for_each l' body)
  end.

(** The same for a loop body that may [break]. *)
Inductive flow (S : Type) : Type :=
| Continue (s : S)
| Break (s : S).
Arguments Continue {S} s.
Arguments Break {S} s.

Fixpoint for_break {A S} (l : list A) (body : A -> S -> flow S) (acc : S) : S :=
  match l with
  | [] => acc
  | a :: l' =>
      match body a acc with
      | Continue acc' => for_break l' body acc'
      | Break acc' => acc'
      end
  end.

(** [max] of a sequence of numbers: the first greatest element, and
    [ValueError] on an empty sequence. *)
Definition max (l : list Q) : result Q :=
  match l with
  | [] => Raise ValueError
  | q :: l' => Ok (fold_left (fun m x => if Qle_bool x m then m else x) l' q)
  end.

(** [l[i]] with Python's negative indices. *)
Definition index {A} (l : list A) (i : Z) : result A :=
  let n := Z.of_nat (List.length l) in
  let j := if i <? 0 then i + n else i in
  if (0 <=? j) && (j <? n) then
    match l !! Z.to_nat j with
    | Some a => Ok a
    | None => Raise IndexError
    end
  else Raise IndexError.

End Py.

Export Py (Ok, Raise, VNone, VNaN, VStr, VInt,
           KeyError, ValueError, IndexError, AttributeError).

#[global] Instance result_ret : MRet Py.result := @Py.Ok.
#[global] Instance result_bind : MBind Py.result :=
  fun A B k m => Py.bind m k.

(** ** The data frame *)

Module Frame.

(** A row ([Series]) with its index label, as [iterrows] yields it. *)
Record row : Type := Row { ix : Z; cells : gmap string Py.val }.

(** A frame is the sequence of its rows. *)
Definition t : Type := list row.

(** [row[column]] *)
Definition get (r : row) (column : string) : Py.result Py.val :=
  match cells r !! column with
  | Some v => Ok v
  | None => Raise KeyError
  end.

(** [dataframe[column]] *)
Fixpoint col (df : t) (column : string) : Py.result (list Py.val) :=
  match df with
  | [] => Ok []
  | r :: df' =>
      v ← get r column;
      vs ← col df' column;
      Ok (v :: vs)
  end.

(** [Series.unique]: the distinct values in order of first appearance. *)
Fixpoint unique (l : list Py.val) : list Py.val :=
  match l with
  | [] => []
  | v :: l' => v :: List.filter (fun w => bool_decide (w <> v)) (unique l')
  end.

End Frame.

(** ** The plotting surface *)

Module Mpl.

(** [Text.set_text(s)]: [None] becomes the empty string, any other object
    its [str]. *)
Definition text_of (s : Py.val) : string :=
  match s with
  | VNone => Py.empty
  | VNaN => "nan"
  | VStr t => t
  | VInt z => pretty z
  end.

(** The label of a major tick of the y axis. *)
Record label : Type := Label {
  get_text : string;
  get_ha : string;
  get_fontfamily : Py.val;
  get_fontweight : Py.val;
  get_fontsize : Py.val;
}.

Definition set_fontweight (w : Py.val) (t : label) : label :=
  Label (get_text t) (get_ha t) (get_fontfamily t) w (get_fontsize t).

Definition set_fontsize (sz : Py.val) (t : label) : label :=
  Label (get_text t) (get_ha t) (get_fontfamily t) (get_fontweight t) sz.

(** The y coordinate of a text: a category of the y axis or a number. *)
Inductive ycoord : Type :=
| YCat (v : Py.val)
| YNum (q : Q).

(** A text added by [Axes.text]; a keyword that the call leaves out is
    [None]. *)
Record annotation : Type := Annotation {
  a_x : Q;
  a_y : ycoord;
  a_s : string;
  a_fontfamily : option string;
  a_horizontalalignment : option string;
  a_verticalalignment : option string;
  a_fontweight : option Py.val;
  a_size : option Py.val;
}.

(** A band added by [Axes.axhspan]. *)
Record span : Type := Span {
  s_ymin : Q;
  s_ymax : Q;
  s_color : Py.val;
  s_alpha : Q;
  s_zorder : Z;
}.

(** The label of the y axis with the properties [set_ylabel] sets. *)
Record axis_label : Type := AxisLabel {
  l_text : string;
  l_loc : Py.val;
  l_labelpad : Q;
  l_rotation : Py.val;
  l_size : Py.val;
  l_fontweight : Py.val;
}.

Record axes : Type := Axes {
  get_xlim : Q * Q;
  get_ylim : Q * Q;
  get_yticklabels : list label;
  tick_pad : Q;
  get_ylabel : axis_label;
  texts : list annotation;
  spans : list span;
}.

Definition with_yticklabels (ls : list label) (ax : axes) : axes :=
  Axes (get_xlim ax) (get_ylim ax) ls (tick_pad ax) (get_ylabel ax)
       (texts ax) (spans ax).

(** [yax.set_tick_params(pad=pad)] *)
Definition set_tick_params_pad (pad : Q) (ax : axes) : axes :=
  Axes (get_xlim ax) (get_ylim ax) (get_yticklabels ax) pad (get_ylabel ax)
       (texts ax) (spans ax).

Definition with_ylabel (l : axis_label) (ax : axes) : axes :=
  Axes (get_xlim ax) (get_ylim ax) (get_yticklabels ax) (tick_pad ax) l
       (texts ax) (spans ax).

(** [ax.text(...)] *)
Definition text (a : annotation) (ax : axes) : axes :=
  Axes (get_xlim ax) (get_ylim ax) (get_yticklabels ax) (tick_pad ax)
       (get_ylabel ax) (texts ax ++ [a]) (spans ax).

(** [ax.axhspan(ymin, ymax, color=, alpha=, zorder=)] *)
Definition axhspan (ymin ymax : Q) (color : Py.val) (alpha : Q) (zorder : Z)
    (ax : axes) : axes :=
  Axes (get_xlim ax) (get_ylim ax) (get_yticklabels ax) (tick_pad ax)
       (get_ylabel ax) (texts ax) (spans ax ++ [Span ymin ymax color alpha zorder]).

(** [ax.set_yticklabels(labels, fontfamily=, ha=)]: the labels go to the
    major ticks in order, a tick without a label shows the empty string;
    the keywords are applied to every tick label. *)
Fixpoint relabel (ticks : list label) (labels : list Py.val)
    (fontfamily : Py.val) (ha : string) : list label :=
  match ticks with
  | [] => []
  | t :: ticks' =>
      Label (match labels with v :: _ => text_of v | [] => Py.empty end)
            ha fontfamily (get_fontweight t) (get_fontsize t)
      :: relabel ticks' (tl labels) fontfamily ha
  end.

Definition set_yticklabels (labels : list Py.val) (fontfamily : Py.val)
    (ha : string) (ax : axes) : axes :=
  with_yticklabels (relabel (get_yticklabels ax) labels fontfamily ha) ax.

(** [ax.get_yticklabels()[i].set_...(...)]: the label object is changed
    in place. *)
Definition modify_yticklabel (i : Z) (f : label -> label) (ax : axes)
  : Py.result axes :=
  _ ← Py.index (get_yticklabels ax) i;
  let n := Z.of_nat (List.length (get_yticklabels ax)) in
  let j := if i <? 0 then i + n else i in
  Ok (with_yticklabels (alter f (Z.to_nat j) (get_yticklabels ax)) ax).

(** [rcParams["yaxis.labellocation"]] *)
Definition rc_yaxis_labellocation : Py.val := VStr "center".

(** [ax.set_ylabel(text)]: only the text and the location are set. *)
Definition set_ylabel_text (s : string) (ax : axes) : axes :=
  let l := get_ylabel ax in
  with_ylabel (AxisLabel s rc_yaxis_labellocation (l_labelpad l)
                 (l_rotation l) (l_size l) (l_fontweight l)) ax.

(** [ax.set_ylabel(text, loc=, labelpad=, rotation=, size=, fontweight=)] *)
Definition set_ylabel (s : string) (loc : Py.val) (labelpad : Q)
    (rotation size fontweight : Py.val) (ax : axes) : axes :=
  with_ylabel (AxisLabel s loc labelpad rotation size fontweight) ax.

End Mpl.

(** ** The functions of [graph_utils] *)

Definition is_not_None {A} (o : option A) : bool :=
  match o with Some _ => true | None => false end.

(** [renderer] is the text measurement of the figure's canvas:
    [T.label.get_window_extent(renderer=...).width]. *)
Definition right_flush_yticklabels (renderer : Mpl.label -> Q)
    (dataframe : Frame.t) (yticklabel : string) (flush : bool)
    (ax : Mpl.axes) (kwargs : gmap string Py.val) : Py.result (Q * Mpl.axes) :=
  let fontfamily := Py.kwargs_get kwargs "fontfamily" (VStr "monospace") in
  labels ← Frame.col dataframe yticklabel;
  let ax :=
    if flush then Mpl.set_yticklabels labels fontfamily "left" ax
    else Mpl.set_yticklabels labels fontfamily "right" ax in
  pad ← Py.max (List.map renderer (Mpl.get_yticklabels ax));
  let ax := if flush then Mpl.set_tick_params_pad pad ax else ax in
  Ok (pad, ax).

(** The body of the loop of [draw_pval_right]. *)
Definition pval_body (yticklabel : string) (row : Frame.row)
    (st : Q * Mpl.axes) : Py.result (Q * Mpl.axes) :=
  let ax := st.2 in
  yticklabel1 ← Frame.get row yticklabel;
  yticklabel2 ← Frame.get row "formatted_pval";
  let yticklabel2 := if Py.isna yticklabel2 then VStr Py.empty else yticklabel2 in
  let extrapad := 5 # 100 in
  let pad := ((Mpl.get_xlim ax).2 * (1 + extrapad))%Q in
  Ok (pad,
      Mpl.text {| Mpl.a_x := pad;
                  Mpl.a_y := Mpl.YCat yticklabel1;
                  Mpl.a_s := Mpl.text_of yticklabel2;
                  Mpl.a_fontfamily := None;
                  Mpl.a_horizontalalignment := Some "left";
                  Mpl.a_verticalalignment := Some "center";
                  Mpl.a_fontweight := None;
                  Mpl.a_size := None |} ax).

Definition draw_pval_right (dataframe : Frame.t) (pval : option string)
    (annoteheaders : option (list string)) (yticklabel : string) (pad : Q)
    (ax : Mpl.axes) (kwargs : gmap string Py.val) : Py.result Mpl.axes :=
  if is_not_None pval then
    st ← Py.for_each dataframe (pval_body yticklabel) (pad, ax);
    let pad := st.1 in
    let ax := st.2 in
    (* 2nd label title *)
    let pval_title := Py.kwargs_get kwargs "pval_title" (VStr "P-value") in
    if bool_decide (pval_title <> VNone) then
      let ax :=
        if negb (is_not_None annoteheaders) then
          Mpl.text {| Mpl.a_x := pad;
                      Mpl.a_y := Mpl.YNum (Mpl.get_ylim ax).2;
                      Mpl.a_s := Mpl.text_of pval_title;
                      Mpl.a_fontfamily := None;
                      Mpl.a_horizontalalignment := None;
                      Mpl.a_verticalalignment := None;
                      Mpl.a_fontweight := Some (VStr "bold");
                      Mpl.a_size := Some (VInt 10) |} ax
        else ax in
      if is_not_None annoteheaders then (* if tableheaders exist *)
        let pval_title_fontweight :=
          Py.kwargs_get kwargs "pval_title_fontweight" (VStr "bold") in
        let pval_title_fontsize :=
          Py.kwargs_get kwargs "pval_title_fontsize" (VInt 10) in
        let header_index := Z.of_nat (List.length (Mpl.get_yticklabels ax)) - 1 in
        Ok (Mpl.text {| Mpl.a_x := pad;
                        Mpl.a_y := Mpl.YNum (inject_Z header_index);
                        Mpl.a_s := Mpl.text_of pval_title;
                        Mpl.a_fontfamily := None;
                        Mpl.a_horizontalalignment := Some "left";
                        Mpl.a_verticalalignment := Some "center";
                        Mpl.a_fontweight := Some pval_title_fontweight;
                        Mpl.a_size := Some pval_title_fontsize |} ax)
      else Ok ax
    else Ok ax
  else Ok ax.

(** The body of the loop of [draw_ylabel2]. *)
Definition ylabel2_body (grouplab_size grouplab_fontweight : Py.val)
    (group_row_ix : Z) (row : Frame.row) (ax : Mpl.axes)
  : Py.result Mpl.axes :=
  let ix := Frame.ix row in
  yticklabel1 ← Frame.get row "yticklabel";
  yticklabel2 ← Frame.get row "yticklabel2";
  let extrapad := 5 # 100 in
  let pad := ((Mpl.get_xlim ax).2 * (1 + extrapad))%Q in
  if bool_decide (ix = group_row_ix) then
    Ok (Mpl.text {| Mpl.a_x := pad;
                    Mpl.a_y := Mpl.YCat yticklabel1;
                    Mpl.a_s := Mpl.text_of yticklabel2;
                    Mpl.a_fontfamily := Some "monospace";
                    Mpl.a_horizontalalignment := Some "left";
                    Mpl.a_verticalalignment := Some "center";
                    Mpl.a_fontweight := Some grouplab_fontweight;
                    Mpl.a_size := Some grouplab_size |} ax)
  else
    Ok (Mpl.text {| Mpl.a_x := pad;
                    Mpl.a_y := Mpl.YCat yticklabel1;
                    Mpl.a_s := Mpl.text_of yticklabel2;
                    Mpl.a_fontfamily := Some "monospace";
                    Mpl.a_horizontalalignment := Some "left";
                    Mpl.a_verticalalignment := Some "center";
                    Mpl.a_fontweight := None;
                    Mpl.a_size := None |} ax).

Definition draw_ylabel2 (dataframe : Frame.t) (ax : Mpl.axes)
    (kwargs : gmap string Py.val) : Py.result Mpl.axes :=
  let grouplab_size := Py.kwargs_get kwargs "grouplab_size" (VInt 10) in
  let grouplab_fontweight :=
    Py.kwargs_get kwargs "grouplab_fontweight" (VStr "bold") in
  let group_row_ix := Z.of_nat (List.length dataframe) - 1 in
  Py.for_each dataframe
    (ylabel2_body grouplab_size grouplab_fontweight group_row_ix) ax.

Definition draw_ylabel1 (ylabel : option string) (pad : Q) (ax : Mpl.axes)
    (kwargs : gmap string Py.val) : Mpl.axes :=
  let ax := Mpl.set_ylabel_text Py.empty ax in
  match ylabel with
  | Some ylabel =>
      (* Retrieve settings from kwargs *)
      let ylabel1_size := Py.kwargs_get kwargs "ylabel1_size" (VInt 12) in
      let ylabel1_fontweight :=
        Py.kwargs_get kwargs "ylabel1_fontweight" (VStr "bold") in
      let ylabel_loc := Py.kwargs_get kwargs "ylabel_loc" (VStr "top") in
      let ylabel_angle :=
        Py.kwargs_get kwargs "ylabel_angle" (VStr "horizontal") in
      (* Draw ylabel *)
      Mpl.set_ylabel ylabel ylabel_loc (- pad)%Q ylabel_angle ylabel1_size
        ylabel1_fontweight ax
  | None => ax
  end.

Definition format_grouplabels (dataframe : Frame.t) (groupvar : option string)
    (ax : Mpl.axes) (kwargs : gmap string Py.val) : Py.result Mpl.axes :=
  let grouplab_size := Py.kwargs_get kwargs "grouplab_size" (VInt 10) in
  let grouplab_fontweight :=
    Py.kwargs_get kwargs "grouplab_fontweight" (VStr "bold") in
  match groupvar with
  | Some groupvar =>
      Py.for_each (Py.enumerate (Mpl.get_yticklabels ax))
        (fun (tick : Z * Mpl.label) ax =>
           let (ix, ylabel) := tick in
           column ← Frame.col dataframe groupvar;
           Py.for_each (Frame.unique column) (fun gr ax =>
             Py.try_except
               (gr_lower ← Py.lower gr;
                if bool_decide
                     (gr_lower = Py.str_strip (Py.str_lower (Mpl.get_text ylabel)))
                then
                  ax ← Mpl.modify_yticklabel ix
                         (Mpl.set_fontweight grouplab_fontweight) ax;
                  Mpl.modify_yticklabel ix (Mpl.set_fontsize grouplab_size) ax
                else Ok ax)
               AttributeError
               (Ok ax)) ax) ax
  | None => Ok ax
  end.

Definition format_tableheader (annoteheaders right_annoteheaders : option (list string))
    (ax : Mpl.axes) (kwargs : gmap string Py.val) : Py.result Mpl.axes :=
  if is_not_None annoteheaders || is_not_None right_annoteheaders then
    let tableheader_fontweight :=
      Py.kwargs_get kwargs "tableheader_fontweight" (VStr "bold") in
    let tableheader_fontsize :=
      Py.kwargs_get kwargs "tableheader_fontsize" (VInt 10) in
    (* last row is table header *)
    let nlast := Z.of_nat (List.length (Mpl.get_yticklabels ax)) in
    ax ← Mpl.modify_yticklabel (nlast - 1)
           (Mpl.set_fontweight tableheader_fontweight) ax;
    Mpl.modify_yticklabel (nlast - 1) (Mpl.set_fontsize tableheader_fontsize) ax
  else Ok ax.

(** The [groups] list of [draw_alt_row_colors]. *)
Definition alt_row_groups (dataframe : Frame.t) (groupvar : option string)
  : Py.result (list string) :=
  match groupvar with
  | Some groupvar =>
      column ← Frame.col dataframe groupvar;
      Ok (omap (fun grp_str =>
                  match grp_str with
                  | VStr s => Some (Py.str_lower (Py.str_strip s))
                  | _ => None
                  end) (Frame.unique column))
  | None => Ok []
  end.

(** The test [labtext.lower().strip() in groups]. *)
Definition is_group_label (groups : list string) (ticklab : Mpl.label) : bool :=
  let labtext := Mpl.get_text ticklab in
  bool_decide (Py.str_strip (Py.str_lower labtext) ∈ groups).

(** The body of the loop of [draw_alt_row_colors] over the enumerated tick
    labels; the state is the counter and the axes. *)
Definition alt_row_body (headers_exist : bool) (yticklabels : list Mpl.label)
    (groups : list string) (row_color : Py.val)
    (tick : Z * Mpl.label) (st : Z * Mpl.axes) : Py.flow (Z * Mpl.axes) :=
  let (ix, ticklab) := tick in
  let (counter, ax) := st in
  if headers_exist && bool_decide (ix = Z.of_nat (List.length yticklabels) - 1)
  then Py.Break st
  else
    if is_group_label groups ticklab then
      Py.Continue (2, ax) (* reset *)
    else (* color if even row *)
      let ax :=
        if counter mod 2 =? 0 then
          Mpl.axhspan (inject_Z ix - (1 # 2)) (inject_Z ix + (1 # 2))
            row_color (8 # 100) 0 ax
        else ax in
      Py.Continue (counter + 1, ax).

Definition draw_alt_row_colors (dataframe : Frame.t) (groupvar : option string)
    (annoteheaders right_annoteheaders : option (list string))
    (ax : Mpl.axes) (kwargs : gmap string Py.val) : Py.result Mpl.axes :=
  (* Retrieve settings *)
  let row_color := Py.kwargs_get kwargs "row_color" (VStr "black") in
  let headers_exist :=
    if is_not_None annoteheaders || is_not_None right_annoteheaders
    then true else false in
  let yticklabels := Mpl.get_yticklabels ax in
  let counter := 1 in
  groups ← alt_row_groups dataframe groupvar;
  let st :=
    Py.for_break (Py.enumerate yticklabels)
      (alt_row_body headers_exist yticklabels groups row_color)
      (counter, ax) in
  Ok st.2.

(** Whether the band of tick [ix], from [ix - 0.5] to [ix + 0.5], is among
    the bands of the axes. *)
Definition covers (ix : Z) (sp : Mpl.span) : bool :=
  Qeq_bool (Mpl.s_ymin sp) (inject_Z ix - (1 # 2))
  && Qeq_bool (Mpl.s_ymax sp) (inject_Z ix + (1 # 2)).

Definition shaded (ax : Mpl.axes) (ix : Z) : bool :=
  existsb (covers ix) (Mpl.spans ax).

(** ** Example data: two groups, three variables

    The ticks [A, x1, x2, B, x3], where [A] and [B] are the values of the
    group column. *)

Module Example.

Definition tick (s : string) : Mpl.label :=
  Mpl.Label s "right" (VStr "monospace") (VStr "normal") (VInt 9).

Definition no_ylabel : Mpl.axis_label :=
  Mpl.AxisLabel Py.empty (VStr "center") 4 VNone (VInt 10) (VStr "normal").

Definition axes_of (ticks : list Mpl.label) : Mpl.axes :=
  Mpl.Axes ((-1)%Q, 2%Q) ((-1 # 2)%Q, (9 # 2)%Q) ticks (7 # 2)
    no_ylabel [] [].

Definition ax : Mpl.axes :=
  axes_of [tick "A"; tick "x1"; tick "x2"; tick "B"; tick "x3"].

Definition row (i : Z) (group : Py.val) (lab : string) (lab2 pval : Py.val)
  : Frame.row :=
  Frame.Row i (<["group" := group]>
               (<["yticklabel" := VStr lab]>
                (<["yticklabel2" := lab2]>
                 (<["formatted_pval" := pval]> ∅)))).

(** A renderer for a monospace font: ten units a character. *)
Definition renderer (t : Mpl.label) : Q :=
  inject_Z (10 * Z.of_nat (String.length (Mpl.get_text t))).

Definition rows : Frame.t :=
  [ row 0 (VStr "A") "A" (VStr "n") VNaN;
    row 1 VNone "x1" (VStr "12") (VStr "0.04");
    row 2 VNone "x2" (VStr "7") VNaN;
    row 3 (VStr "B") "B" VNaN VNaN;
    row 4 VNone "x3" (VStr "N") (VStr "0.31") ].

(** A group value that ends in a blank, [Age ], with its tick and one
    variable of the group. *)
Definition padded_ax : Mpl.axes := axes_of [tick "Age "; tick "young"].

Definition padded_rows : Frame.t :=
  [ row 0 (VStr "Age ") "Age " VNaN VNaN;
    row 1 (VStr "Age ") "young" (VStr "31") (VStr "0.02") ].

End Example.

(** ** Notions the statements use *)

(** The band the loop draws for tick [j]. *)
Definition band (row_color : Py.val) (j : Z) : Mpl.span :=
  Mpl.Span (inject_Z j - (1 # 2)) (inject_Z j + (1 # 2)) row_color (8 # 100) 0.

(** What the formatting functions keep: the number of tick labels and
    their texts. *)
Definition same_ticks (ax ax' : Mpl.axes) : Prop :=
  List.map Mpl.get_text (Mpl.get_yticklabels ax')
  = List.map Mpl.get_text (Mpl.get_yticklabels ax).

(** The rows of a frame have the columns the p-value loop reads. *)
Definition has_pval_columns (yticklabel : string) (row : Frame.row) : Prop :=
  is_Some (Frame.cells row !! yticklabel)
  /\ is_Some (Frame.cells row !! "formatted_pval").

(** What the loop draws for a row: the p-value, or the empty string for a
    missing one, left-aligned and vertically centred at the row, at the
    upper x limit times [1 + extrapad]. *)
Definition pval_text_of (yticklabel : string) (upper : Q) (row : Frame.row)
    (a : Mpl.annotation) : Prop :=
  exists yticklabel1 yticklabel2,
    Frame.get row yticklabel = Ok yticklabel1
    /\ Frame.get row "formatted_pval" = Ok yticklabel2
    /\ a = {| Mpl.a_x := upper * (1 + (5 # 100));
              Mpl.a_y := Mpl.YCat yticklabel1;
              Mpl.a_s := if Py.isna yticklabel2 then Py.empty
                         else Mpl.text_of yticklabel2;
              Mpl.a_fontfamily := None;
              Mpl.a_horizontalalignment := Some "left";
              Mpl.a_verticalalignment := Some "center";
              Mpl.a_fontweight := None;
              Mpl.a_size := None |}.

(** The rows of a frame have the columns [draw_ylabel2] reads. *)
Definition has_ylabel2_columns (row : Frame.row) : Prop :=
  is_Some (Frame.cells row !! "yticklabel")
  /\ is_Some (Frame.cells row !! "yticklabel2").

(** What [draw_ylabel2] draws for a row: the second label as it is in the
    table, with the group-label weight and size in the row whose index
    label is [group_row_ix], and with neither in any other row. *)
Definition ylabel2_text_of (kwargs : gmap string Py.val) (group_row_ix : Z)
    (upper : Q) (row : Frame.row) (a : Mpl.annotation) : Prop :=
  exists yticklabel1 yticklabel2,
    Frame.get row "yticklabel" = Ok yticklabel1
    /\ Frame.get row "yticklabel2" = Ok yticklabel2
    /\ Mpl.a_x a = (upper * (105 # 100))%Q
    /\ Mpl.a_y a = Mpl.YCat yticklabel1
    /\ Mpl.a_s a = Mpl.text_of yticklabel2
    /\ Mpl.a_fontfamily a = Some "monospace"
    /\ Mpl.a_horizontalalignment a = Some "left"
    /\ Mpl.a_verticalalignment a = Some "center"
    /\ (Frame.ix row = group_row_ix ->
        Mpl.a_fontweight a
        = Some (Py.kwargs_get kwargs "grouplab_fontweight" (VStr "bold"))
        /\ Mpl.a_size a = Some (Py.kwargs_get kwargs "grouplab_size" (VInt 10)))
    /\ (Frame.ix row <> group_row_ix ->
        Mpl.a_fontweight a = None /\ Mpl.a_size a = None).

(** The axes after some texts were added. *)
Definition with_texts (ax : Mpl.axes) (added : list Mpl.annotation) : Mpl.axes :=
  Mpl.Axes (Mpl.get_xlim ax) (Mpl.get_ylim ax) (Mpl.get_yticklabels ax)
    (Mpl.tick_pad ax) (Mpl.get_ylabel ax) (Mpl.texts ax ++ added) (Mpl.spans ax).

(** [f <$> m]: the function on the value a computation returns. *)
#[global] Instance result_fmap : FMap Py.result :=
  fun A B f m => match m with Ok a => Ok (f a) | Raise e => Raise e end.

(** The axes after some bands were added. *)
Definition with_spans (ax : Mpl.axes) (added : list Mpl.span) : Mpl.axes :=
  Mpl.Axes (Mpl.get_xlim ax) (Mpl.get_ylim ax) (Mpl.get_yticklabels ax)
    (Mpl.tick_pad ax) (Mpl.get_ylabel ax) (Mpl.texts ax) (Mpl.spans ax ++ added).

(** A tick label is the label of a group: some string of the group column,
    lowered, is the label's text, lowered and stripped.  This is the test
    of [format_grouplabels]. *)
Definition names_group (column : list Py.val) (t : Mpl.label) : bool :=
  existsb (fun gr =>
             match gr with
             | VStr s =>
                 bool_decide
                   (Py.str_lower s = Py.str_strip (Py.str_lower (Mpl.get_text t)))
             | _ => false
             end) column.

(** The group-label weight and size on a tick label. *)
Definition as_grouplabel (kwargs : gmap string Py.val) (t : Mpl.label)
  : Mpl.label :=
  Mpl.set_fontsize (Py.kwargs_get kwargs "grouplab_size" (VInt 10))
    (Mpl.set_fontweight
       (Py.kwargs_get kwargs "grouplab_fontweight" (VStr "bold")) t).

(** The table-header weight and size on a tick label. *)
Definition as_tableheader (kwargs : gmap string Py.val) (t : Mpl.label)
  : Mpl.label :=
  Mpl.set_fontsize (Py.kwargs_get kwargs "tableheader_fontsize" (VInt 10))
    (Mpl.set_fontweight
       (Py.kwargs_get kwargs "tableheader_fontweight" (VStr "bold")) t).

(** ** The x axis: [format_xticks], [draw_xticks]

    The columns of the confidence limits hold floats, so they are read
    from the numeric view of the table: a cell is a number or [NaN]. *)

Module Num.

Definition frame : Type := list (gmap string (option Q)).

(** [dataframe[column]] *)
Fixpoint col (df : frame) (column : string) : Py.result (list (option Q)) :=
  match df with
  | [] => Ok []
  | r :: df' =>
      match r !! column with
      | Some v => vs ← col df' column; Ok (v :: vs)
      | None => Raise KeyError
      end
  end.

(** The cells that are not [NaN]. *)
Definition numbers (l : list (option Q)) : list Q := omap id l.

(** [Series.min()]: the least number, [NaN] when there is none. *)
Definition min (l : list (option Q)) : option Q :=
  match numbers l with
  | [] => None
  | q :: l' => Some (fold_left (fun m x => if Qle_bool m x then m else x) l' q)
  end.

(** [Series.max()]: the greatest number, [NaN] when there is none. *)
Definition max (l : list (option Q)) : option Q :=
  match numbers l with
  | [] => None
  | q :: l' => Some (fold_left (fun m x => if Qle_bool x m then m else x) l' q)
  end.

End Num.

Module Chart.

(** The tick locator of the x axis. *)
Inductive locator : Type :=
| AutoLocator
| MaxNLocator (nbins : Py.val).

(** The axes with the settings of the x axis; [T] is the type of the
    user's tick labels, which are passed on as they are. *)
Record t (T : Type) : Type := Chart {
  ax : Mpl.axes;
  xticklabels : option (list T * Py.val);
  major_locator : locator;
  labelsize : Py.val;
}.
Arguments Chart {T} ax xticklabels major_locator labelsize.
Arguments ax {T} _.
Arguments xticklabels {T} _.
Arguments major_locator {T} _.
Arguments labelsize {T} _.

(** [ax.set_xlim(left, right)]: a limit that is [NaN] is a [ValueError].
    The limits become the view limits as they are given (Matplotlib
    widens an interval of no length). *)
Definition set_xlim {T} (left right : option Q) (c : t T) : Py.result (t T) :=
  match left, right with
  | Some lo, Some hi =>
      let a := ax c in
      Ok (Chart (Mpl.Axes (lo, hi) (Mpl.get_ylim a) (Mpl.get_yticklabels a)
                   (Mpl.tick_pad a) (Mpl.get_ylabel a) (Mpl.texts a)
                   (Mpl.spans a))
            (xticklabels c) (major_locator c) (labelsize c))
  | _, _ => Raise ValueError
  end.

(** [ax.set_xticklabels(xticks, fontsize=)] *)
Definition set_xticklabels {T} (xticks : list T) (fontsize : Py.val) (c : t T)
  : t T :=
  Chart (ax c) (Some (xticks, fontsize)) (major_locator c) (labelsize c).

(** [ax.xaxis.set_major_locator(...)] *)
Definition set_major_locator {T} (l : locator) (c : t T) : t T :=
  Chart (ax c) (xticklabels c) l (labelsize c).

(** [ax.tick_params(axis="x", labelsize=)] *)
Definition tick_params_labelsize {T} (sz : Py.val) (c : t T) : t T :=
  Chart (ax c) (xticklabels c) (major_locator c) sz.

End Chart.

Definition format_xticks {T} (dataframe : Num.frame) (ll hl : string)
    (xticks : option (list T)) (c : Chart.t T) (kwargs : gmap string Py.val)
  : Py.result (Chart.t T) :=
  let nticks := Py.kwargs_get kwargs "nticks" (VInt 5) in
  let xtick_size := Py.kwargs_get kwargs "xtick_size" (VInt 9) in
  lows ← Num.col dataframe ll;
  let xlowerlimit := Num.min lows in
  highs ← Num.col dataframe hl;
  let xupperlimit := Num.max highs in
  c ← Chart.set_xlim xlowerlimit xupperlimit c;
  let c :=
    match xticks with
    | Some xticks => Chart.set_xticklabels xticks xtick_size c
    | None => Chart.set_major_locator (Chart.MaxNLocator nticks) c
    end in
  Ok (Chart.tick_params_labelsize xtick_size c).

Definition draw_xticks {T} (xticks : option (list T)) (c : Chart.t T)
    (kwargs : gmap string Py.val) : Chart.t T :=
  let xtick_size := Py.kwargs_get kwargs "xtick_size" (VInt 9) in
  match xticks with
  | Some xticks => Chart.set_xticklabels xticks xtick_size c
  | None => Chart.tick_params_labelsize xtick_size c
  end.

(** A table of three intervals; the second has no upper limit. *)
Definition example_limits : Num.frame :=
  [ <["ll" := Some (-3 # 10)]> (<["hl" := Some (2 # 10)]> ∅);
    <["ll" := Some (1 # 10)]> (<["hl" := None]> ∅);
    <["ll" := Some (-1 # 10)]> (<["hl" := Some (7 # 10)]> ∅) ].

Definition example_chart : Chart.t Z :=
  Chart.Chart Example.ax None Chart.AutoLocator (VInt 10).


(** ** Loops *)

Lemma enumerate_from_app {A} (l1 l2 : list A) (k : Z) :
  Py.enumerate_from k (l1 ++ l2)
  = (Py.enumerate_from k l1
     ++ Py.enumerate_from (k + Z.of_nat (List.length l1)) l2)%list.
Proof.
  revert k. induction l1 as [|a l1 IH]; intros k; simpl.
  - by rewrite Z.add_0_r.
  - rewrite IH.
    by replace (k + 1 + Z.of_nat (List.length l1))
      with (k + Z.of_nat (S (List.length l1))) by lia.
Qed.

Lemma elem_of_enumerate_from {A} (l : list A) (k j : Z) (a : A) :
  (j, a) ∈ Py.enumerate_from k l ->
  k <= j < k + Z.of_nat (List.length l) /\ l !! Z.to_nat (j - k) = Some a.
Proof.
  revert k. induction l as [|b l IH]; intros k; simpl.
  - intros H. inversion H.
  - intros H. apply elem_of_cons in H as [H|H].
    + injection H as -> ->. split; [lia|]. by rewrite Z.sub_diag.
    + apply IH in H as [Hr Hl]. split; [lia|].
      replace (Z.to_nat (j - k)) with (S (Z.to_nat (j - (k + 1)))) by lia.
      exact Hl.
Qed.

Lemma for_break_app {A S} (l1 l2 : list A) (body : A -> S -> Py.flow S) (st : S) :
  (forall a s, a ∈ l1 -> exists s', body a s = Py.Continue s') ->
  Py.for_break (l1 ++ l2) body st = Py.for_break l2 body (Py.for_break l1 body st).
Proof.
  revert st. induction l1 as [|a l1 IH]; intros st Hc; simpl; [done|].
  destruct (Hc a st) as [s' ->]; [left|].
  apply IH. intros b s Hb. apply Hc. by right.
Qed.

(** ** Zebra striping: [draw_alt_row_colors] *)

Section AltRows.

Variables (headers_exist : bool) (yticklabels : list Mpl.label).
Variables (groups : list string) (row_color : Py.val).

Let body := alt_row_body headers_exist yticklabels groups row_color.
Let last_ix : Z := Z.of_nat (List.length yticklabels) - 1.

(** One turn of the loop. *)
Lemma alt_rows_loop_cons (t : Mpl.label) (l : list Mpl.label) (k c : Z)
    (ax : Mpl.axes) :
  Py.for_break (Py.enumerate_from k (t :: l)) body (c, ax)
  = if headers_exist && bool_decide (k = last_ix) then (c, ax)
    else if is_group_label groups t
         then Py.for_break (Py.enumerate_from (k + 1) l) body (2, ax)
         else Py.for_break (Py.enumerate_from (k + 1) l) body
                (c + 1, if c mod 2 =? 0
                        then Mpl.axhspan (inject_Z k - (1 # 2))
                               (inject_Z k + (1 # 2)) row_color (8 # 100) 0 ax
                        else ax).
Proof.
  simpl. unfold body at 1, alt_row_body, last_ix.
  destruct (headers_exist && _); [done|].
  by destruct (is_group_label groups t).
Qed.

(** The loop only appends bands: each one belongs to a tick the loop
    visits, never to the header row when headers exist, and nothing else
    of the axes changes. *)
Lemma alt_rows_loop_spans (l : list Mpl.label) (k c : Z) (ax : Mpl.axes) :
  exists added,
    Mpl.spans (Py.for_break (Py.enumerate_from k l) body (c, ax)).2
      = (Mpl.spans ax ++ added)%list
    /\ Forall (fun sp => exists j,
                 sp = band row_color j /\ k <= j < k + Z.of_nat (List.length l)
                 /\ (headers_exist = true -> j <> last_ix)) added
    /\ Mpl.get_yticklabels (Py.for_break (Py.enumerate_from k l) body (c, ax)).2
       = Mpl.get_yticklabels ax.
Proof.
  revert k c ax. induction l as [|t l IH]; intros k c ax.
  - exists []. simpl. by rewrite app_nil_r.
  - rewrite alt_rows_loop_cons.
    destruct (headers_exist && bool_decide (k = last_ix)) eqn:Hbrk.
    { exists []. simpl. by rewrite app_nil_r. }
    assert (Hk : headers_exist = true -> k <> last_ix).
    { intros ->. simpl in Hbrk. by apply bool_decide_eq_false in Hbrk. }
    assert (Hup : forall added,
      Forall (fun sp => exists j,
                 sp = band row_color j /\ k + 1 <= j < k + 1 + Z.of_nat (List.length l)
                 /\ (headers_exist = true -> j <> last_ix)) added ->
      Forall (fun sp => exists j,
                 sp = band row_color j /\ k <= j < k + Z.of_nat (List.length (t :: l))
                 /\ (headers_exist = true -> j <> last_ix)) added).
    { intros added Hall. eapply Forall_impl; [exact Hall|].
      intros sp (j & ? & ? & ?).
      exists j. simpl. repeat split; auto; lia. }
    destruct (is_group_label groups t).
    + destruct (IH (k + 1) 2 ax) as (added & Hs & Hall & Hl).
      exists added. auto.
    + destruct (c mod 2 =? 0).
      * destruct (IH (k + 1) (c + 1)
                    (Mpl.axhspan (inject_Z k - (1 # 2)) (inject_Z k + (1 # 2))
                       row_color (8 # 100) 0 ax)) as (added & Hs & Hall & Hl).
        exists (band row_color k :: added). rewrite Hs. simpl.
        rewrite <- app_assoc. split; [done|]. split; [|done].
        constructor; [|auto].
        exists k. simpl. repeat split; auto; lia.
      * destruct (IH (k + 1) (c + 1) ax) as (added & Hs & Hall & Hl).
        exists added. auto.
Qed.

(** The loop does not [break] on a tick that is not the header row. *)
Lemma alt_rows_no_break (l : list Mpl.label) (k : Z) :
  (headers_exist = true -> k + Z.of_nat (List.length l) <= last_ix) ->
  forall a s, a ∈ Py.enumerate_from k l -> exists s', body a s = Py.Continue s'.
Proof.
  intros Hlast [j t] [c ax] Hin. apply elem_of_enumerate_from in Hin as [Hj _].
  unfold body, alt_row_body.
  assert (headers_exist && bool_decide (j = Z.of_nat (List.length yticklabels) - 1)
          = false) as ->.
  { destruct headers_exist; [|done]. simpl. apply bool_decide_eq_false.
    specialize (Hlast eq_refl). unfold last_ix in Hlast. lia. }
  destruct (is_group_label groups t); eauto.
Qed.

End AltRows.

Lemma covers_band (row_color : Py.val) (i j : Z) :
  covers i (band row_color j) = bool_decide (i = j).
Proof.
  unfold covers, band, Qeq_bool; simpl.
  case_bool_decide as H.
  - subst j. by rewrite !Z.eqb_refl.
  - apply andb_false_intro1. apply Z.eqb_neq. lia.
Qed.

Lemma shaded_spans (ax ax' : Mpl.axes) (added : list Mpl.span) (i : Z) :
  Mpl.spans ax' = (Mpl.spans ax ++ added)%list ->
  shaded ax' i = shaded ax i || existsb (covers i) added.
Proof. intros H. unfold shaded. by rewrite H, existsb_app. Qed.

(** [draw_alt_row_colors] fails only when the group column is missing. *)
Lemma draw_alt_row_colors_ok (dataframe : Frame.t) (groupvar : option string)
    (annoteheaders right_annoteheaders : option (list string))
    (ax : Mpl.axes) (kwargs : gmap string Py.val) (groups : list string) :
  alt_row_groups dataframe groupvar = Ok groups ->
  draw_alt_row_colors dataframe groupvar annoteheaders right_annoteheaders
    ax kwargs
  = Ok (Py.for_break (Py.enumerate (Mpl.get_yticklabels ax))
          (alt_row_body
             (is_not_None annoteheaders || is_not_None right_annoteheaders)
             (Mpl.get_yticklabels ax) groups
             (Py.kwargs_get kwargs "row_color" (VStr "black")))
          (1, ax)).2.
Proof.
  intros Hg. unfold draw_alt_row_colors. rewrite Hg. simpl.
  by destruct (is_not_None annoteheaders || is_not_None right_annoteheaders).
Qed.

(** The row that follows a group row is shaded when it is an ordinary row
    that the loop reaches. *)
Lemma alt_rows_after_group (headers_exist : bool) (groups : list string)
    (row_color : Py.val) (ax : Mpl.axes) (i : nat) (t u : Mpl.label) :
  Mpl.get_yticklabels ax !! i = Some t ->
  is_group_label groups t = true ->
  Mpl.get_yticklabels ax !! S i = Some u ->
  is_group_label groups u = false ->
  (headers_exist = true -> (S (S i) < List.length (Mpl.get_yticklabels ax))%nat) ->
  shaded (Py.for_break (Py.enumerate (Mpl.get_yticklabels ax))
            (alt_row_body headers_exist (Mpl.get_yticklabels ax) groups row_color)
            (1, ax)).2 (Z.of_nat (S i)) = true.
Proof.
  intros Ht Hgt Hu Hgu Hlast.
  set (ticks := Mpl.get_yticklabels ax) in *.
  pose proof (lookup_lt_Some _ _ _ Hu) as Hlen.
  assert (Hsplit : ticks = (take i ticks ++ t :: u :: drop (S (S i)) ticks)%list).
  { rewrite <- (take_drop_middle ticks (S i) u Hu) at 1.
    rewrite (take_S_r ticks i t Ht), <- app_assoc. done. }
  assert (Hi : List.length (take i ticks) = i) by (rewrite length_take; lia).
  unfold Py.enumerate.
  rewrite Hsplit at 1. rewrite enumerate_from_app, for_break_app.
  2:{ apply alt_rows_no_break. intros _. rewrite Hi. fold ticks. lia. }
  rewrite Hi, Z.add_0_l.
  destruct (Py.for_break _ _ (1, ax)) as [c1 ax1].
  rewrite alt_rows_loop_cons.
  assert (headers_exist && bool_decide (Z.of_nat i = Z.of_nat (List.length ticks) - 1)
          = false) as ->.
  { apply andb_false_intro2, bool_decide_eq_false. lia. }
  rewrite Hgt, alt_rows_loop_cons.
  assert (headers_exist
          && bool_decide (Z.of_nat i + 1 = Z.of_nat (List.length ticks) - 1)
          = false) as ->.
  { destruct headers_exist; [|done]. apply bool_decide_eq_false.
    specialize (Hlast eq_refl). lia. }
  rewrite Hgu. change (2 mod 2 =? 0) with true. cbv iota.
  match goal with
  | |- shaded (Py.for_break (Py.enumerate_from ?k ?l) ?b (?c, ?a)).2 _ = _ =>
      destruct (alt_rows_loop_spans headers_exist ticks groups row_color l k c a)
        as (added & Hs & _ & _)
  end.
  rewrite (shaded_spans _ _ _ _ Hs). apply orb_true_intro. left.
  unfold shaded, Mpl.axhspan. simpl. rewrite existsb_app. simpl.
  fold (band row_color (Z.of_nat i + 1)).
  rewrite covers_band.
  rewrite bool_decide_eq_true_2 by lia.
  by rewrite orb_true_r.
Qed.

(** C1 (as the code has it).  A group row restarts the alternation with a
    shaded row: an ordinary row that immediately follows a group row, and
    that is not the excluded header row, is shaded.  For the ticks
    [A, x1, x2, B, x3] without a header row the pattern is
    unshaded, shaded, unshaded, unshaded, shaded. *)
Theorem alt_rows_restart_shaded_after_group :
  (forall (dataframe : Frame.t) (groupvar : option string)
          (annoteheaders right_annoteheaders : option (list string))
          (ax : Mpl.axes) (kwargs : gmap string Py.val)
          (groups : list string) (i : nat) (t u : Mpl.label),
      alt_row_groups dataframe groupvar = Ok groups ->
      Mpl.get_yticklabels ax !! i = Some t ->
      is_group_label groups t = true ->
      Mpl.get_yticklabels ax !! S i = Some u ->
      is_group_label groups u = false ->
      (is_not_None annoteheaders || is_not_None right_annoteheaders = true ->
       (S (S i) < List.length (Mpl.get_yticklabels ax))%nat) ->
      exists ax',
        draw_alt_row_colors dataframe groupvar annoteheaders
          right_annoteheaders ax kwargs = Ok ax'
        /\ shaded ax' (Z.of_nat (S i)) = true)
  /\ (exists ax',
        draw_alt_row_colors Example.rows (Some "group") None None Example.ax ∅
        = Ok ax'
        /\ List.map (shaded ax') [0; 1; 2; 3; 4]
           = [false; true; false; false; true]).
Proof.
  split.
  - intros df gv ah rah ax kw groups i t u Hg Ht Hgt Hu Hgu Hlast.
    eexists. split; [by apply draw_alt_row_colors_ok|].
    by eapply alt_rows_after_group.
  - eexists. split; [vm_compute; reflexivity|]. vm_compute. reflexivity.
Qed.

(** The general part at the example: [x1] follows the group row [A]. *)
Lemma alt_rows_restart_shaded_after_group_witness :
  exists ax',
    draw_alt_row_colors Example.rows (Some "group") None None Example.ax ∅
    = Ok ax'
    /\ shaded ax' 1 = true.
Proof.
  apply (proj1 alt_rows_restart_shaded_after_group Example.rows (Some "group")
           None None Example.ax ∅ ["a"; "b"] 0%nat
           (Example.tick "A") (Example.tick "x1"));
    try reflexivity.
  simpl. intros H. discriminate H.
Defined.

(** C1 (as the spec states it) fails: on the ticks [A, x1, x2, B, x3] the
    row [x1] that follows the group row [A] is shaded, and the pattern is
    not unshaded, unshaded, shaded, unshaded, unshaded. *)
Lemma alt_rows_spec_pattern_fails :
  exists ax',
    draw_alt_row_colors Example.rows (Some "group") None None Example.ax ∅
    = Ok ax'
    /\ is_group_label ["a"; "b"] (Example.tick "A") = true
    /\ shaded ax' 1 = true
    /\ List.map (shaded ax') [0; 1; 2; 3; 4]
       <> [false; false; true; false; false].
Proof.
  eexists. split; [vm_compute; reflexivity|].
  split; [vm_compute; reflexivity|].
  split; [vm_compute; reflexivity|].
  vm_compute. discriminate.
Qed.

(** ** Tick label formatting: [format_grouplabels], [format_tableheader] *)

Lemma for_each_invariant {A S} (P : S -> Prop) (l : list A)
    (body : A -> S -> Py.result S) (st : S) :
  (forall a s, a ∈ l -> P s -> exists s', body a s = Ok s' /\ P s') ->
  P st ->
  exists st', Py.for_each l body st = Ok st' /\ P st'.
Proof.
  revert st. induction l as [|a l IH]; intros st Hbody Hst; simpl.
  - eauto.
  - destruct (Hbody a st) as (s' & -> & Hs'); [left|done|]. simpl.
    apply IH; [|done]. intros b s Hb. apply Hbody. by right.
Qed.

Lemma index_in_range {A} (l : list A) (i : Z) :
  0 <= i < Z.of_nat (List.length l) ->
  exists a, Py.index l i = Ok a /\ l !! Z.to_nat i = Some a.
Proof.
  intros Hi. unfold Py.index.
  destruct (Z.ltb_spec i 0); [lia|].
  destruct (Z.leb_spec 0 i); [|lia].
  destruct (Z.ltb_spec i (Z.of_nat (List.length l))); [|lia]. simpl.
  destruct (l !! Z.to_nat i) eqn:Hl; [eauto|].
  apply lookup_ge_None in Hl. lia.
Qed.

Lemma modify_yticklabel_in_range (i : Z) (f : Mpl.label -> Mpl.label)
    (ax : Mpl.axes) :
  0 <= i < Z.of_nat (List.length (Mpl.get_yticklabels ax)) ->
  Mpl.modify_yticklabel i f ax
  = Ok (Mpl.with_yticklabels (alter f (Z.to_nat i) (Mpl.get_yticklabels ax)) ax).
Proof.
  intros Hi. unfold Mpl.modify_yticklabel.
  destruct (index_in_range _ _ Hi) as (a & -> & _). simpl.
  destruct (Z.ltb_spec i 0); [lia|done].
Qed.

Lemma same_ticks_length (ax ax' : Mpl.axes) :
  same_ticks ax ax' ->
  List.length (Mpl.get_yticklabels ax') = List.length (Mpl.get_yticklabels ax).
Proof.
  intros H. unfold same_ticks in H.
  by rewrite <- (length_map Mpl.get_text), H, length_map.
Qed.

Lemma map_get_text_alter (f : Mpl.label -> Mpl.label) (n : nat)
    (l : list Mpl.label) :
  (forall t, Mpl.get_text (f t) = Mpl.get_text t) ->
  List.map Mpl.get_text (alter f n l) = List.map Mpl.get_text l.
Proof.
  intros Hf. revert n. induction l as [|t l IH]; intros [|n]; simpl; try done.
  - by rewrite Hf.
  - f_equal. apply IH.
Qed.

Lemma modify_yticklabel_same_ticks (i : Z) (f : Mpl.label -> Mpl.label)
    (ax0 ax : Mpl.axes) :
  (forall t, Mpl.get_text (f t) = Mpl.get_text t) ->
  0 <= i < Z.of_nat (List.length (Mpl.get_yticklabels ax0)) ->
  same_ticks ax0 ax ->
  exists ax', Mpl.modify_yticklabel i f ax = Ok ax' /\ same_ticks ax0 ax'.
Proof.
  intros Hf Hi Hs.
  rewrite modify_yticklabel_in_range
    by (rewrite (same_ticks_length _ _ Hs); done).
  eexists. split; [done|]. unfold same_ticks in *. simpl.
  by rewrite map_get_text_alter.
Qed.

(** [format_grouplabels] returns whenever the group column exists, and
    keeps the tick labels' number and texts. *)
Lemma format_grouplabels_ok (dataframe : Frame.t) (groupvar : string)
    (ax : Mpl.axes) (kwargs : gmap string Py.val) (column : list Py.val) :
  Frame.col dataframe groupvar = Ok column ->
  exists ax',
    format_grouplabels dataframe (Some groupvar) ax kwargs = Ok ax'
    /\ same_ticks ax ax'.
Proof.
  intros Hcol. unfold format_grouplabels.
  apply (for_each_invariant (same_ticks ax)); [|done].
  intros [ix ylabel] ax1 Hin Hax1.
  apply elem_of_enumerate_from in Hin as [Hix _].
  rewrite Hcol. simpl.
  apply (for_each_invariant (same_ticks ax)); [|done].
  intros gr ax2 _ Hax2.
  destruct gr as [| |s|z]; simpl; eauto.
  case_bool_decide; [|eauto].
  destruct (modify_yticklabel_same_ticks ix
              (Mpl.set_fontweight
                 (Py.kwargs_get kwargs "grouplab_fontweight" (VStr "bold")))
              ax ax2) as (ax3 & -> & Hax3); [done|lia|done|].
  simpl.
  destruct (modify_yticklabel_same_ticks ix
              (Mpl.set_fontsize
                 (Py.kwargs_get kwargs "grouplab_size" (VInt 10)))
              ax ax3) as (ax4 & -> & Hax4); [done|lia|done|].
  simpl. eauto.
Qed.

(** With a header row, [format_tableheader] gives the last tick label the
    header weight and size, whatever its formatting was before. *)
Lemma format_tableheader_last
    (annoteheaders right_annoteheaders : option (list string))
    (ax : Mpl.axes) (kwargs : gmap string Py.val) :
  is_not_None annoteheaders || is_not_None right_annoteheaders = true ->
  Mpl.get_yticklabels ax <> [] ->
  exists ax' t,
    format_tableheader annoteheaders right_annoteheaders ax kwargs = Ok ax'
    /\ same_ticks ax ax'
    /\ last (Mpl.get_yticklabels ax') = Some t
    /\ Mpl.get_fontweight t
       = Py.kwargs_get kwargs "tableheader_fontweight" (VStr "bold")
    /\ Mpl.get_fontsize t
       = Py.kwargs_get kwargs "tableheader_fontsize" (VInt 10).
Proof.
  intros Hh Hne. unfold format_tableheader. rewrite Hh.
  destruct (Mpl.get_yticklabels ax) as [|t0 l] eqn:Hticks using rev_ind;
    [done|]. clear IHl.
  set (n := List.length l).
  assert (Hlen : Z.of_nat (List.length (l ++ [t0])) - 1 = Z.of_nat n).
  { rewrite length_app. simpl. lia. }
  rewrite Hlen.
  rewrite modify_yticklabel_in_range
    by (rewrite Hticks, length_app; simpl; lia).
  simpl. rewrite modify_yticklabel_in_range
    by (simpl; rewrite length_alter, Hticks, length_app; simpl; lia).
  simpl. rewrite Hticks, Nat2Z.id.
  unfold n. rewrite <- (Nat.add_0_r (List.length l)).
  rewrite !alter_app_r. simpl.
  eexists _, _. split; [done|].
  split.
  { unfold same_ticks. simpl. by rewrite Hticks, !map_app. }
  split; [apply last_snoc|]. done.
Qed.

Lemma alt_row_groups_col (dataframe : Frame.t) (groupvar : string)
    (groups : list string) :
  alt_row_groups dataframe (Some groupvar) = Ok groups ->
  exists column, Frame.col dataframe groupvar = Ok column.
Proof.
  unfold alt_row_groups. destruct (Frame.col dataframe groupvar); [eauto|done].
Qed.

(** C4.  With a table-header row (some list of annotation headers is not
    [None]) the last tick row is not shaded by [draw_alt_row_colors];
    [format_tableheader] gives its label the header weight (bold unless
    configured otherwise) and the configured header size, also when
    [format_grouplabels] formatted the labels before. *)
Theorem table_header_row_unshaded_and_formatted
    (dataframe : Frame.t) (groupvar : option string)
    (annoteheaders right_annoteheaders : option (list string))
    (ax : Mpl.axes) (kwargs : gmap string Py.val) (groups : list string) :
  is_not_None annoteheaders || is_not_None right_annoteheaders = true ->
  Mpl.get_yticklabels ax <> [] ->
  alt_row_groups dataframe groupvar = Ok groups ->
  let last_ix := Z.of_nat (List.length (Mpl.get_yticklabels ax)) - 1 in
  let header_format (ax' : Mpl.axes) :=
    exists t,
      last (Mpl.get_yticklabels ax') = Some t
      /\ Mpl.get_fontweight t
         = Py.kwargs_get kwargs "tableheader_fontweight" (VStr "bold")
      /\ (kwargs !! "tableheader_fontweight" = None ->
          Mpl.get_fontweight t = VStr "bold")
      /\ Mpl.get_fontsize t
         = Py.kwargs_get kwargs "tableheader_fontsize" (VInt 10) in
  (exists ax' added,
     draw_alt_row_colors dataframe groupvar annoteheaders right_annoteheaders
       ax kwargs = Ok ax'
     /\ Mpl.spans ax' = (Mpl.spans ax ++ added)%list
     /\ existsb (covers last_ix) added = false
     /\ shaded ax' last_ix = shaded ax last_ix)
  /\ (exists ax', 
        format_tableheader annoteheaders right_annoteheaders ax kwargs = Ok ax'
        /\ same_ticks ax ax' /\ header_format ax')
  /\ (exists ax1 ax2,
        format_grouplabels dataframe groupvar ax kwargs = Ok ax1
        /\ format_tableheader annoteheaders right_annoteheaders ax1 kwargs
           = Ok ax2
        /\ same_ticks ax ax2 /\ header_format ax2).
Proof.
  intros Hh Hne Hg last_ix header_format.
  assert (Hfmt : forall ax0, same_ticks ax ax0 ->
    exists ax', 
      format_tableheader annoteheaders right_annoteheaders ax0 kwargs = Ok ax'
      /\ same_ticks ax ax' /\ header_format ax').
  { intros ax0 Hs.
    destruct (format_tableheader_last annoteheaders right_annoteheaders ax0
                kwargs Hh) as (ax' & t & Hf & Hs' & Hl & Hw & Hz).
    { intros Hnil. apply same_ticks_length in Hs. rewrite Hnil in Hs.
      destruct (Mpl.get_yticklabels ax); [done|discriminate]. }
    exists ax'. split; [done|]. split.
    { unfold same_ticks in *. congruence. }
    exists t. repeat split; try done.
    intros Hnone. rewrite Hw. unfold Py.kwargs_get. by rewrite Hnone. }
  split; [|split].
  - rewrite (draw_alt_row_colors_ok _ _ _ _ _ _ _ Hg), Hh.
    destruct (alt_rows_loop_spans true (Mpl.get_yticklabels ax) groups
                (Py.kwargs_get kwargs "row_color" (VStr "black"))
                (Mpl.get_yticklabels ax) 0 1 ax) as (added & Hs & Hall & _).
    assert (Hno : existsb (covers last_ix) added = false).
    { clear Hs. induction Hall as [|sp added (j & -> & _ & Hj) _ IH]; [done|].
      simpl. rewrite covers_band, IH.
      rewrite bool_decide_eq_false_2; [done|].
      intros Heq. by apply Hj. }
    eexists _, added. split; [done|]. split; [exact Hs|]. split; [done|].
    by rewrite (shaded_spans _ _ _ _ Hs), Hno, orb_false_r.
  - by apply Hfmt.
  - destruct groupvar as [gv|].
    + destruct (alt_row_groups_col _ _ _ Hg) as [column Hcol].
      destruct (format_grouplabels_ok dataframe gv ax kwargs column Hcol)
        as (ax1 & Hf1 & Hs1).
      destruct (Hfmt ax1 Hs1) as (ax2 & ? & ? & ?). eauto 6.
    + destruct (Hfmt ax) as (ax2 & ? & ? & ?); [done|].
      exists ax, ax2. eauto.
Qed.

(** C4 on the example, where the last tick is taken as the header row. *)
Lemma table_header_row_unshaded_and_formatted_witness :
  exists ax1 ax2,
    format_grouplabels Example.rows (Some "group") Example.ax ∅ = Ok ax1
    /\ format_tableheader (Some ["N"]) None ax1 ∅ = Ok ax2
    /\ exists t,
         last (Mpl.get_yticklabels ax2) = Some t
         /\ Mpl.get_fontweight t = VStr "bold".
Proof.
  destruct (table_header_row_unshaded_and_formatted Example.rows
              (Some "group") (Some ["N"]) None Example.ax ∅ ["a"; "b"])
    as (_ & _ & ax1 & ax2 & H1 & H2 & _ & t & Ht & _ & Hw & _);
    [reflexivity|simpl; discriminate|reflexivity|].
  exists ax1, ax2. split; [exact H1|]. split; [exact H2|].
  exists t. split; [exact Ht|]. apply Hw. reflexivity.
Defined.

(** ** Label layout: [right_flush_yticklabels] *)

Lemma max_fold_spec (l : list Q) (q : Q) :
  let m := fold_left (fun m x => if Qle_bool x m then m else x) l q in
  (m = q \/ In m l) /\ (q <= m)%Q /\ (forall x, In x l -> (x <= m)%Q).
Proof.
  revert q. induction l as [|y l IH]; intros q; simpl.
  - split; [by left|]. split; [apply Qle_refl|]. intros x [].
  - destruct (IH (if Qle_bool y q then q else y)) as (Hin & Hle & Hall).
    destruct (Qle_bool y q) eqn:Hyq.
    + apply Qle_bool_iff in Hyq.
      split; [destruct Hin; auto|]. split; [done|].
      intros x [<-|Hx]; [by eapply Qle_trans|by apply Hall].
    + assert (q <= y)%Q.
      { apply Qlt_le_weak, Qnot_le_lt. intros Hle'.
        apply Qle_bool_iff in Hle'. congruence. }
      split; [destruct Hin; auto|]. split; [by eapply Qle_trans|].
      intros x [<-|Hx]; [done|by apply Hall].
Qed.

(** [max] returns an element of the sequence that no element exceeds. *)
Lemma max_spec (l : list Q) :
  l <> [] ->
  exists m, Py.max l = Ok m /\ In m l /\ (forall x, In x l -> (x <= m)%Q).
Proof.
  destruct l as [|q l]; [done|]. intros _. simpl.
  destruct (max_fold_spec l q) as (Hin & Hle & Hall).
  eexists. split; [done|]. split.
  - destruct Hin as [->|Hin]; [by left|by right].
  - intros x [<-|Hx]; [done|by apply Hall].
Qed.

Lemma relabel_length (ticks : list Mpl.label) (labels : list Py.val)
    (fontfamily : Py.val) (ha : string) :
  List.length (Mpl.relabel ticks labels fontfamily ha) = List.length ticks.
Proof.
  revert labels. induction ticks as [|t ticks IH]; intros labels; simpl; auto.
Qed.

Lemma relabel_ha (ticks : list Mpl.label) (labels : list Py.val)
    (fontfamily : Py.val) (ha : string) :
  Forall (fun t => Mpl.get_ha t = ha) (Mpl.relabel ticks labels fontfamily ha).
Proof.
  revert labels. induction ticks as [|t ticks IH]; intros labels; simpl;
    constructor; auto.
Qed.

Lemma relabel_text (ticks : list Mpl.label) (labels : list Py.val)
    (fontfamily : Py.val) (ha : string) :
  List.length ticks = List.length labels ->
  List.map Mpl.get_text (Mpl.relabel ticks labels fontfamily ha)
  = List.map Mpl.text_of labels.
Proof.
  revert labels. induction ticks as [|t ticks IH]; intros [|v labels] Hlen;
    simpl in *; try done.
  f_equal. apply IH. lia.
Qed.

Lemma col_length (df : Frame.t) (column : string) (vs : list Py.val) :
  Frame.col df column = Ok vs -> List.length vs = List.length df.
Proof.
  revert vs. induction df as [|r df IH]; intros vs; simpl.
  - by intros [= <-].
  - destruct (Frame.get r column); [|done]. simpl.
    destruct (Frame.col df column) as [vs'|]; [|done]. simpl.
    intros [= <-]. simpl. f_equal. by apply IH.
Qed.

(** C3.  With one tick label a row and at least one of them,
    [right_flush_yticklabels] returns the greatest measured width of the
    tick labels.  With [flush] the tick padding becomes that width and the
    labels are left-aligned; without it the padding stays as it was and
    the labels are right-aligned. *)
Theorem right_flush_yticklabels_max (renderer : Mpl.label -> Q)
    (dataframe : Frame.t) (yticklabel : string) (flush : bool)
    (ax : Mpl.axes) (kwargs : gmap string Py.val) (labels : list Py.val) :
  Frame.col dataframe yticklabel = Ok labels ->
  Mpl.get_yticklabels ax <> [] ->
  List.length (Mpl.get_yticklabels ax) = List.length dataframe ->
  exists pad ax',
    right_flush_yticklabels renderer dataframe yticklabel flush ax kwargs
    = Ok (pad, ax')
    /\ List.map Mpl.get_text (Mpl.get_yticklabels ax')
       = List.map Mpl.text_of labels
    /\ In pad (List.map renderer (Mpl.get_yticklabels ax'))
    /\ (forall w, In w (List.map renderer (Mpl.get_yticklabels ax')) ->
        (w <= pad)%Q)
    /\ Forall (fun t => Mpl.get_ha t = if flush then "left" else "right")
         (Mpl.get_yticklabels ax')
    /\ Mpl.tick_pad ax' = (if flush then pad else Mpl.tick_pad ax).
Proof.
  intros Hcol Hne Hlen. unfold right_flush_yticklabels. rewrite Hcol. simpl.
  set (ff := Py.kwargs_get kwargs "fontfamily" (VStr "monospace")).
  set (ha := if flush then "left" else "right").
  assert (Hax : (if flush then Mpl.set_yticklabels labels ff "left" ax
                 else Mpl.set_yticklabels labels ff "right" ax)
                = Mpl.set_yticklabels labels ff ha ax) by by destruct flush.
  rewrite Hax. clear Hax.
  set (ticks' := Mpl.relabel (Mpl.get_yticklabels ax) labels ff ha).
  change (Mpl.get_yticklabels (Mpl.set_yticklabels labels ff ha ax))
    with ticks'.
  destruct (max_spec (List.map renderer ticks')) as (pad & -> & Hin & Hall).
  { intros Hnil. apply (f_equal (@List.length Q)) in Hnil.
    rewrite length_map in Hnil. unfold ticks' in Hnil.
    rewrite relabel_length in Hnil.
    destruct (Mpl.get_yticklabels ax); [done|discriminate]. }
  simpl. exists pad. eexists. split; [done|].
  assert (Hticks : Mpl.get_yticklabels
            (if flush
             then Mpl.set_tick_params_pad pad (Mpl.set_yticklabels labels ff ha ax)
             else Mpl.set_yticklabels labels ff ha ax) = ticks')
    by by destruct flush.
  rewrite Hticks.
  split. { apply relabel_text. rewrite Hlen. symmetry. by eapply col_length. }
  split; [done|]. split; [done|]. split; [apply relabel_ha|].
  by destruct flush.
Qed.

(** C3 on the example, flushed: the widest labels are two characters. *)
Lemma right_flush_yticklabels_max_witness :
  exists pad ax',
    right_flush_yticklabels Example.renderer Example.rows "yticklabel" true
      Example.ax ∅ = Ok (pad, ax')
    /\ Mpl.tick_pad ax' = pad.
Proof.
  destruct (right_flush_yticklabels_max Example.renderer Example.rows
              "yticklabel" true Example.ax ∅
              [VStr "A"; VStr "x1"; VStr "x2"; VStr "B"; VStr "x3"])
    as (pad & ax' & H & _ & _ & _ & _ & Hp);
    [reflexivity|simpl; discriminate|reflexivity|].
  exists pad, ax'. split; [exact H|exact Hp].
Defined.

Lemma relabel_no_labels (ticks : list Mpl.label) (fontfamily : Py.val)
    (ha : string) :
  Forall (fun t => Mpl.get_text t = Py.empty)
    (Mpl.relabel ticks [] fontfamily ha).
Proof. induction ticks as [|t ticks IH]; simpl; constructor; auto. Qed.

(** C2.  For a table without rows [right_flush_yticklabels] raises
    nothing, with and without [flush]: the major ticks of the axis, of
    which there is always at least one, all get the empty label, and the
    pad that is returned is the measured width of such an empty label, so
    it is zero for a renderer that gives an empty text no width.  With
    [flush] that pad becomes the tick padding, without it the padding
    stays. *)
Theorem right_flush_yticklabels_no_rows_degenerate
    (renderer : Mpl.label -> Q) (yticklabel : string) (flush : bool)
    (ax : Mpl.axes) (kwargs : gmap string Py.val) :
  Mpl.get_yticklabels ax <> [] ->
  exists pad ax',
    right_flush_yticklabels renderer [] yticklabel flush ax kwargs
    = Ok (pad, ax')
    /\ Forall (fun t => Mpl.get_text t = Py.empty) (Mpl.get_yticklabels ax')
    /\ (exists t, In t (Mpl.get_yticklabels ax')
                  /\ Mpl.get_text t = Py.empty /\ pad = renderer t)
    /\ ((forall t, Mpl.get_text t = Py.empty -> (renderer t == 0)%Q) ->
        (pad == 0)%Q)
    /\ Mpl.tick_pad ax' = (if flush then pad else Mpl.tick_pad ax).
Proof.
  intros Hne. unfold right_flush_yticklabels. simpl.
  set (ff := Py.kwargs_get kwargs "fontfamily" (VStr "monospace")).
  set (ha := if flush then "left" else "right").
  assert (Hax : (if flush then Mpl.set_yticklabels [] ff "left" ax
                 else Mpl.set_yticklabels [] ff "right" ax)
                = Mpl.set_yticklabels [] ff ha ax) by by destruct flush.
  rewrite Hax. clear Hax.
  set (ticks' := Mpl.relabel (Mpl.get_yticklabels ax) [] ff ha).
  change (Mpl.get_yticklabels (Mpl.set_yticklabels [] ff ha ax)) with ticks'.
  assert (Hempty : Forall (fun t => Mpl.get_text t = Py.empty) ticks')
    by apply relabel_no_labels.
  destruct (max_spec (List.map renderer ticks')) as (pad & -> & Hin & _).
  { intros Hnil. apply (f_equal (@List.length Q)) in Hnil.
    rewrite length_map in Hnil. unfold ticks' in Hnil.
    rewrite relabel_length in Hnil.
    destruct (Mpl.get_yticklabels ax); [done|discriminate]. }
  simpl. exists pad. eexists. split; [done|].
  assert (Hticks : Mpl.get_yticklabels
            (if flush
             then Mpl.set_tick_params_pad pad (Mpl.set_yticklabels [] ff ha ax)
             else Mpl.set_yticklabels [] ff ha ax) = ticks')
    by by destruct flush.
  rewrite Hticks. apply in_map_iff in Hin as (t & <- & Ht).
  assert (Htext : Mpl.get_text t = Py.empty).
  { rewrite Forall_forall in Hempty. apply Hempty. by apply list_elem_of_In. }
  split; [done|]. split; [by exists t|].
  split; [intros Hzero; by apply Hzero|].
  by destruct flush.
Qed.

(** C2 on the example axes, whose five ticks stay when the table has no
    rows: the pad is zero, flushed or not. *)
Lemma right_flush_yticklabels_no_rows_degenerate_witness :
  exists ax1 ax2,
    right_flush_yticklabels Example.renderer [] "yticklabel" true
      Example.ax ∅ = Ok (0%Q, ax1)
    /\ right_flush_yticklabels Example.renderer [] "yticklabel" false
         Example.ax ∅ = Ok (0%Q, ax2).
Proof.
  destruct (right_flush_yticklabels_no_rows_degenerate Example.renderer
              "yticklabel" true Example.ax ∅)
    as (pad1 & ax1 & H1 & _); [simpl; discriminate|].
  destruct (right_flush_yticklabels_no_rows_degenerate Example.renderer
              "yticklabel" false Example.ax ∅)
    as (pad2 & ax2 & H2 & _); [simpl; discriminate|].
  exists ax1, ax2. split.
  - rewrite H1. vm_compute in H1. injection H1 as <- _. reflexivity.
  - rewrite H2. vm_compute in H2. injection H2 as <- _. reflexivity.
Defined.

Lemma with_texts_nil (ax : Mpl.axes) : with_texts ax [] = ax.
Proof. destruct ax. unfold with_texts. simpl. by rewrite app_nil_r. Qed.

Lemma text_with_texts (ax : Mpl.axes) (added : list Mpl.annotation)
    (a : Mpl.annotation) :
  Mpl.text a (with_texts ax added) = with_texts ax (added ++ [a]).
Proof. unfold Mpl.text, with_texts. simpl. by rewrite app_assoc. Qed.

Lemma pval_loop_rows (yticklabel : string) (df : Frame.t) (pad : Q)
    (ax : Mpl.axes) (drawn : list Mpl.annotation) :
  Forall (has_pval_columns yticklabel) df ->
  exists row_texts,
    Py.for_each df (pval_body yticklabel) (pad, with_texts ax drawn)
    = Ok (match df with
          | [] => pad
          | _ => ((Mpl.get_xlim ax).2 * (1 + (5 # 100)))%Q
          end,
          with_texts ax (drawn ++ row_texts))
    /\ Forall2 (pval_text_of yticklabel (Mpl.get_xlim ax).2) df row_texts.
Proof.
  intros Hdf. revert pad drawn.
  induction Hdf as [|row df [[l Hl] [p Hp]] _ IH]; intros pad drawn.
  - exists []. simpl. rewrite app_nil_r. split; [done|constructor].
  - simpl. unfold pval_body at 1. unfold Frame.get. rewrite Hl, Hp. simpl.
    rewrite text_with_texts.
    destruct (IH ((Mpl.get_xlim ax).2 * (1 + (5 # 100)))%Q
                (drawn ++ [ {| Mpl.a_x := (Mpl.get_xlim ax).2 * (1 + (5 # 100));
                    Mpl.a_y := Mpl.YCat l;
                    Mpl.a_s := Mpl.text_of (if Py.isna p then VStr Py.empty else p);
                    Mpl.a_fontfamily := None;
                    Mpl.a_horizontalalignment := Some "left";
                    Mpl.a_verticalalignment := Some "center";
                    Mpl.a_fontweight := None;
                    Mpl.a_size := None |} ])%list) as (rest & Hrun & Hrest).
    eexists (_ :: rest). split.
    + rewrite Hrun. rewrite <- app_assoc. simpl. by destruct df.
    + constructor; [|done]. exists l, p. unfold Frame.get.
      rewrite Hl, Hp. split; [done|]. split; [done|]. by destruct p.
Qed.

(** The result of [draw_pval_right] when the p-value column is given and
    the rows have the columns: the texts of the rows, then the title. *)
Lemma draw_pval_right_run (dataframe : Frame.t) (pval : option string)
    (annoteheaders : option (list string)) (yticklabel : string) (pad : Q)
    (ax : Mpl.axes) (kwargs : gmap string Py.val) :
  pval <> None ->
  Forall (has_pval_columns yticklabel) dataframe ->
  let pval_title := Py.kwargs_get kwargs "pval_title" (VStr "P-value") in
  let x := match dataframe with
           | [] => pad
           | _ => ((Mpl.get_xlim ax).2 * (1 + (5 # 100)))%Q
           end in
  let title :=
    match annoteheaders with
    | None =>
        {| Mpl.a_x := x;
           Mpl.a_y := Mpl.YNum (Mpl.get_ylim ax).2;
           Mpl.a_s := Mpl.text_of pval_title;
           Mpl.a_fontfamily := None;
           Mpl.a_horizontalalignment := None;
           Mpl.a_verticalalignment := None;
           Mpl.a_fontweight := Some (VStr "bold");
           Mpl.a_size := Some (VInt 10) |}
    | Some _ =>
        {| Mpl.a_x := x;
           Mpl.a_y := Mpl.YNum
                        (inject_Z
                           (Z.of_nat (List.length (Mpl.get_yticklabels ax)) - 1));
           Mpl.a_s := Mpl.text_of pval_title;
           Mpl.a_fontfamily := None;
           Mpl.a_horizontalalignment := Some "left";
           Mpl.a_verticalalignment := Some "center";
           Mpl.a_fontweight :=
             Some (Py.kwargs_get kwargs "pval_title_fontweight" (VStr "bold"));
           Mpl.a_size :=
             Some (Py.kwargs_get kwargs "pval_title_fontsize" (VInt 10)) |}
    end in
  exists row_texts,
    Forall2 (pval_text_of yticklabel (Mpl.get_xlim ax).2) dataframe row_texts
    /\ draw_pval_right dataframe pval annoteheaders yticklabel pad ax kwargs
       = Ok (with_texts ax
               (row_texts
                ++ if bool_decide (pval_title <> VNone) then [title] else [])).
Proof.
  intros Hpval Hdf pval_title x title.
  destruct (pval_loop_rows yticklabel dataframe pad ax [] Hdf)
    as (row_texts & Hrun & Hrows).
  rewrite with_texts_nil in Hrun. simpl in Hrun.
  exists row_texts. split; [done|].
  unfold draw_pval_right. destruct pval as [pv|]; [|done]. simpl.
  rewrite Hrun. simpl. fold pval_title. fold x.
  case_bool_decide as Ht.
  - destruct annoteheaders as [hs|]; simpl.
    + by rewrite text_with_texts.
    + by rewrite text_with_texts.
  - by rewrite app_nil_r.
Qed.

(** C5.  When the p-value column is given, [draw_pval_right] draws for
    every row of the table, in order, one text at x = upper x limit * 1.05,
    left-aligned and vertically centred at the row's tick; the text is the
    row's formatted p-value, and the empty string where it is missing. *)
Theorem draw_pval_right_rows (dataframe : Frame.t) (pval : option string)
    (annoteheaders : option (list string)) (yticklabel : string) (pad : Q)
    (ax : Mpl.axes) (kwargs : gmap string Py.val) :
  pval <> None ->
  Forall (has_pval_columns yticklabel) dataframe ->
  exists ax' row_texts title,
    draw_pval_right dataframe pval annoteheaders yticklabel pad ax kwargs
    = Ok ax'
    /\ Mpl.texts ax' = (Mpl.texts ax ++ row_texts ++ title)%list
    /\ (List.length title <= 1)%nat
    /\ Forall2
         (fun row a =>
            exists yticklabel1 yticklabel2,
              Frame.get row yticklabel = Ok yticklabel1
              /\ Frame.get row "formatted_pval" = Ok yticklabel2
              /\ Mpl.a_x a = ((Mpl.get_xlim ax).2 * (105 # 100))%Q
              /\ Mpl.a_y a = Mpl.YCat yticklabel1
              /\ Mpl.a_horizontalalignment a = Some "left"
              /\ Mpl.a_verticalalignment a = Some "center"
              /\ Mpl.a_s a = (if Py.isna yticklabel2 then Py.empty
                              else Mpl.text_of yticklabel2))
         dataframe row_texts.
Proof.
  intros Hpval Hdf.
  destruct (draw_pval_right_run dataframe pval annoteheaders yticklabel pad
              ax kwargs Hpval Hdf) as (row_texts & Hrows & ->).
  eexists _, row_texts, _. split; [done|]. split; [done|].
  split; [by case_bool_decide; simpl; lia|].
  eapply Forall2_impl; [exact Hrows|].
  intros row a (l & p & Hl & Hp & ->). exists l, p. by repeat split.
Qed.

(** C5 on the example: five rows, three of them without a p-value. *)
Lemma draw_pval_right_rows_witness :
  exists ax',
    draw_pval_right Example.rows (Some "pval") None "yticklabel" 0
      Example.ax ∅ = Ok ax'
    /\ List.length (Mpl.texts ax') = 6%nat.
Proof.
  destruct (draw_pval_right_rows Example.rows (Some "pval") None "yticklabel"
              0 Example.ax ∅) as (ax' & row_texts & title & H & _).
  - discriminate.
  - repeat constructor; by eexists.
  - exists ax'. split; [exact H|].
    vm_compute in H. injection H as <-. reflexivity.
Defined.

(** C7.  When the p-value column is given and a title is requested
    ([pval_title] is not [None]), [draw_pval_right] draws the title once,
    after the texts of the rows: without left annotation headers at the
    top of the y range; with them at the y position of the last tick row,
    with the title weight (bold unless configured otherwise). *)
Theorem draw_pval_right_title (dataframe : Frame.t) (pval : option string)
    (annoteheaders : option (list string)) (yticklabel : string) (pad : Q)
    (ax : Mpl.axes) (kwargs : gmap string Py.val) :
  pval <> None ->
  Forall (has_pval_columns yticklabel) dataframe ->
  Py.kwargs_get kwargs "pval_title" (VStr "P-value") <> VNone ->
  exists ax' row_texts title,
    draw_pval_right dataframe pval annoteheaders yticklabel pad ax kwargs
    = Ok ax'
    /\ Mpl.texts ax' = (Mpl.texts ax ++ row_texts ++ [title])%list
    /\ Forall2 (pval_text_of yticklabel (Mpl.get_xlim ax).2) dataframe row_texts
    /\ Mpl.a_s title
       = Mpl.text_of (Py.kwargs_get kwargs "pval_title" (VStr "P-value"))
    /\ (annoteheaders = None ->
        Mpl.a_y title = Mpl.YNum (Mpl.get_ylim ax).2
        /\ Mpl.a_fontweight title = Some (VStr "bold")
        /\ Mpl.a_size title = Some (VInt 10))
    /\ (annoteheaders <> None ->
        Mpl.a_y title
        = Mpl.YNum (inject_Z (Z.of_nat (List.length (Mpl.get_yticklabels ax)) - 1))
        /\ Mpl.a_fontweight title
           = Some (Py.kwargs_get kwargs "pval_title_fontweight" (VStr "bold"))
        /\ (kwargs !! "pval_title_fontweight" = None ->
            Mpl.a_fontweight title = Some (VStr "bold"))
        /\ Mpl.a_size title
           = Some (Py.kwargs_get kwargs "pval_title_fontsize" (VInt 10))
        /\ Mpl.a_horizontalalignment title = Some "left"
        /\ Mpl.a_verticalalignment title = Some "center").
Proof.
  intros Hpval Hdf Htitle.
  destruct (draw_pval_right_run dataframe pval annoteheaders yticklabel pad
              ax kwargs Hpval Hdf) as (row_texts & Hrows & ->).
  rewrite bool_decide_eq_true_2 by done.
  eexists _, row_texts, _. split; [done|]. split; [done|]. split; [done|].
  destruct annoteheaders as [hs|]; simpl.
  - split; [done|]. split; [done|]. intros _. repeat split.
    intros Hnone. unfold Py.kwargs_get. by rewrite Hnone.
  - split; [done|]. split; [done|]. intros H. by destruct H.
Qed.

(** C7 on the example, with left annotation headers: the title is the
    sixth text, at the last of the five ticks. *)
Lemma draw_pval_right_title_witness :
  exists ax' title,
    draw_pval_right Example.rows (Some "pval") (Some ["N"]) "yticklabel" 0
      Example.ax ∅ = Ok ax'
    /\ Mpl.texts ax' !! 5%nat = Some title
    /\ Mpl.a_y title = Mpl.YNum (inject_Z 4)
    /\ Mpl.a_fontweight title = Some (VStr "bold").
Proof.
  destruct (draw_pval_right_title Example.rows (Some "pval") (Some ["N"])
              "yticklabel" 0 Example.ax ∅)
    as (ax' & row_texts & title & H & Ht & Hrows & _ & _ & Hh).
  - discriminate.
  - repeat constructor; by eexists.
  - discriminate.
  - destruct Hh as (Hy & _ & Hw & _); [discriminate|].
    exists ax', title. split; [exact H|].
    split.
    + rewrite Ht. simpl.
      apply Forall2_length in Hrows. simpl in Hrows.
      rewrite lookup_app_r by (rewrite <- Hrows; simpl; lia).
      by rewrite <- Hrows.
    + split; [exact Hy|]. apply Hw. reflexivity.
Defined.

(** C9.  For a table with at least one row and a p-value column, the
    result of [draw_pval_right] does not depend on its [pad] argument. *)
Theorem draw_pval_right_pad_irrelevant (dataframe : Frame.t)
    (pval : option string) (annoteheaders : option (list string))
    (yticklabel : string) (pad1 pad2 : Q) (ax : Mpl.axes)
    (kwargs : gmap string Py.val) :
  dataframe <> [] ->
  pval <> None ->
  draw_pval_right dataframe pval annoteheaders yticklabel pad1 ax kwargs
  = draw_pval_right dataframe pval annoteheaders yticklabel pad2 ax kwargs.
Proof.
  intros Hdf _. destruct dataframe as [|row df]; [done|].
  unfold draw_pval_right. simpl. by unfold pval_body at 1 3.
Qed.

Lemma draw_pval_right_pad_irrelevant_witness :
  draw_pval_right Example.rows (Some "pval") None "yticklabel" 0
    Example.ax ∅
  = draw_pval_right Example.rows (Some "pval") None "yticklabel" 250
      Example.ax ∅.
Proof.
  apply (draw_pval_right_pad_irrelevant Example.rows (Some "pval") None
           "yticklabel" 0 250 Example.ax ∅); discriminate.
Defined.

(** ** Left-hand axis title: [draw_ylabel1] *)

(** C10.  [draw_ylabel1] first clears the y-axis label.  With
    [ylabel = None] the axes are left with the empty label, so a label set
    before is erased; otherwise the label is set with the configured
    size, weight, location and rotation and the label pad [- pad]. *)
Theorem draw_ylabel1_clears_then_sets (ylabel : option string) (pad : Q)
    (ax : Mpl.axes) (kwargs : gmap string Py.val) :
  let ax' := draw_ylabel1 ylabel pad ax kwargs in
  (ylabel = None ->
   Mpl.l_text (Mpl.get_ylabel ax') = Py.empty
   /\ (Mpl.l_text (Mpl.get_ylabel ax) <> Py.empty -> ax' <> ax))
  /\ (forall s, ylabel = Some s ->
      Mpl.get_ylabel ax'
      = {| Mpl.l_text := s;
           Mpl.l_loc := Py.kwargs_get kwargs "ylabel_loc" (VStr "top");
           Mpl.l_labelpad := (- pad)%Q;
           Mpl.l_rotation :=
             Py.kwargs_get kwargs "ylabel_angle" (VStr "horizontal");
           Mpl.l_size := Py.kwargs_get kwargs "ylabel1_size" (VInt 12);
           Mpl.l_fontweight :=
             Py.kwargs_get kwargs "ylabel1_fontweight" (VStr "bold") |})
  /\ Mpl.get_xlim ax' = Mpl.get_xlim ax
  /\ Mpl.get_ylim ax' = Mpl.get_ylim ax
  /\ Mpl.get_yticklabels ax' = Mpl.get_yticklabels ax
  /\ Mpl.tick_pad ax' = Mpl.tick_pad ax
  /\ Mpl.texts ax' = Mpl.texts ax
  /\ Mpl.spans ax' = Mpl.spans ax.
Proof.
  intros ax'. unfold ax', draw_ylabel1.
  split; [|split].
  - intros ->. simpl. split; [done|].
    intros Hne Heq. apply Hne. by rewrite <- Heq.
  - intros s ->. done.
  - by destruct ylabel.
Qed.

(** C10 on axes that carry a label: the call with [None] erases it. *)
Lemma draw_ylabel1_clears_then_sets_witness :
  let ax := Mpl.with_ylabel
              (Mpl.AxisLabel "Variable" (VStr "top") 0 (VStr "horizontal")
                 (VInt 12) (VStr "bold")) Example.ax in
  Mpl.l_text (Mpl.get_ylabel (draw_ylabel1 None 30 ax ∅)) = Py.empty
  /\ draw_ylabel1 None 30 ax ∅ <> ax.
Proof.
  intros ax.
  destruct (draw_ylabel1_clears_then_sets None 30 ax ∅) as (H & _).
  destruct (H eq_refl) as (H1 & H2).
  split; [exact H1|]. apply H2. discriminate.
Defined.

(** ** Right-hand second labels: [draw_ylabel2] *)

(** C6, the part the code misses.  [draw_ylabel2] passes a missing second
    label ([NaN]) to the text as it is, so that it is drawn as [nan] and
    not as the empty string: the fourth row of the example.  Its sibling
    [draw_pval_right] replaces the missing p-value of the same row by the
    empty string. *)
Theorem draw_ylabel2_missing_label_not_empty :
  Frame.get (Example.row 3 (VStr "B") "B" VNaN VNaN) "yticklabel2" = Ok VNaN
  /\ (exists ax',
        draw_ylabel2 Example.rows Example.ax ∅ = Ok ax'
        /\ List.map Mpl.a_s (Mpl.texts ax') = ["n"; "12"; "7"; "nan"; "N"])
  /\ (exists ax',
        draw_pval_right Example.rows (Some "pval") None "yticklabel" 0
          Example.ax (<["pval_title" := VNone]> ∅) = Ok ax'
        /\ List.map Mpl.a_s (Mpl.texts ax')
           = [Py.empty; "0.04"; Py.empty; Py.empty; "0.31"]).
Proof.
  split; [reflexivity|].
  split; eexists; (split; [vm_compute; reflexivity|]); vm_compute; reflexivity.
Qed.

(** [draw_ylabel2] draws one text a row, in order: bold and of the
    group-label size in the row whose index label is the number of rows
    less one, of default weight in the others. *)
Lemma ylabel2_loop_rows (kwargs : gmap string Py.val) (group_row_ix : Z)
    (df : Frame.t) (ax : Mpl.axes) (drawn : list Mpl.annotation) :
  Forall has_ylabel2_columns df ->
  exists row_texts,
    Py.for_each df
      (ylabel2_body (Py.kwargs_get kwargs "grouplab_size" (VInt 10))
         (Py.kwargs_get kwargs "grouplab_fontweight" (VStr "bold"))
         group_row_ix)
      (with_texts ax drawn)
    = Ok (with_texts ax (drawn ++ row_texts))
    /\ Forall2 (ylabel2_text_of kwargs group_row_ix (Mpl.get_xlim ax).2)
         df row_texts.
Proof.
  intros Hdf. revert drawn.
  induction Hdf as [|row df [[l Hl] [l2 Hl2]] _ IH]; intros drawn.
  - exists []. simpl. rewrite app_nil_r. split; [done|constructor].
  - simpl. unfold ylabel2_body at 1. unfold Frame.get. rewrite Hl, Hl2. simpl.
    case_bool_decide as Hix; simpl; rewrite text_with_texts;
      match goal with
      | |- context [with_texts ax (drawn ++ [?a])] =>
          destruct (IH (drawn ++ [a])%list) as (rest & Hrun & Hrest);
          exists (a :: rest)
      end;
      (split; [by rewrite Hrun, <- app_assoc|]);
      (constructor; [|done]); exists l, l2; unfold Frame.get;
      rewrite Hl, Hl2; simpl; repeat split; try done.
Qed.

Lemma draw_ylabel2_rows (dataframe : Frame.t) (ax : Mpl.axes)
    (kwargs : gmap string Py.val) :
  Forall has_ylabel2_columns dataframe ->
  exists row_texts,
    draw_ylabel2 dataframe ax kwargs = Ok (with_texts ax row_texts)
    /\ Forall2 (ylabel2_text_of kwargs (Z.of_nat (List.length dataframe) - 1)
                  (Mpl.get_xlim ax).2)
         dataframe row_texts.
Proof.
  intros Hdf. unfold draw_ylabel2.
  destruct (ylabel2_loop_rows kwargs (Z.of_nat (List.length dataframe) - 1)
              dataframe ax [] Hdf) as (row_texts & Hrun & Hrows).
  rewrite with_texts_nil in Hrun. eauto.
Qed.

(** ** Group membership *)

(** C8, the part the code misses.  [format_grouplabels] lowers the group
    value but does not strip it: for the group value [Age ] and the tick
    label [Age ] the tick is not a group label for [format_grouplabels],
    which leaves its weight and size as they were, and it is one for
    [draw_alt_row_colors], which strips both. *)
Theorem format_grouplabels_group_not_stripped :
  alt_row_groups Example.padded_rows (Some "group") = Ok ["age"]
  /\ is_group_label ["age"] (Example.tick "Age ") = true
  /\ format_grouplabels Example.padded_rows (Some "group") Example.padded_ax ∅
     = Ok Example.padded_ax
  /\ (exists ax',
        format_grouplabels Example.rows (Some "group") Example.ax ∅ = Ok ax'
        /\ List.map Mpl.get_fontweight (Mpl.get_yticklabels ax')
           = [VStr "bold"; VStr "normal"; VStr "normal"; VStr "bold";
              VStr "normal"]).
Proof.
  split; [vm_compute; reflexivity|].
  split; [vm_compute; reflexivity|].
  split; [vm_compute; reflexivity|].
  eexists. split; vm_compute; reflexivity.
Qed.

(** A group value that is not a string is no group for either function,
    and neither raises. *)
Lemma group_value_not_a_string :
  alt_row_groups [Example.row 0 VNaN "x" VNaN VNaN; Example.row 1 (VInt 3) "3" VNaN VNaN]
    (Some "group") = Ok []
  /\ format_grouplabels
       [Example.row 0 VNaN "x" VNaN VNaN; Example.row 1 (VInt 3) "3" VNaN VNaN]
       (Some "group") (Example.axes_of [Example.tick "x"; Example.tick "3"]) ∅
     = Ok (Example.axes_of [Example.tick "x"; Example.tick "3"]).
Proof. split; vm_compute; reflexivity. Qed.

(** ** More on the zebra striping *)

Lemma parity_of_nat (d : nat) :
  Z.odd (Z.of_nat d) = Nat.odd d /\ Z.even (Z.of_nat d) = Nat.even d.
Proof.
  induction d as [|d [IHo IHe]]; [done|].
  rewrite Nat2Z.inj_succ, Z.odd_succ, Z.even_succ, Nat.odd_succ, Nat.even_succ.
  done.
Qed.

Lemma shaded_axhspan (ax : Mpl.axes) (row_color : Py.val) (k j : Z) :
  shaded (Mpl.axhspan (inject_Z k - (1 # 2)) (inject_Z k + (1 # 2))
            row_color (8 # 100) 0 ax) j
  = shaded ax j || bool_decide (j = k).
Proof.
  unfold shaded, Mpl.axhspan. simpl. rewrite existsb_app. simpl.
  fold (band row_color k). by rewrite covers_band, orb_false_r.
Qed.

Section AltRowsRuns.

Variables (headers_exist : bool) (yticklabels : list Mpl.label).
Variables (groups : list string) (row_color : Py.val).

Local Abbreviation body :=
  (alt_row_body headers_exist yticklabels groups row_color).
Local Abbreviation last_ix := (Z.of_nat (List.length yticklabels) - 1).

(** Ticks the loop does not visit keep their shading. *)
Lemma alt_rows_loop_outside (l : list Mpl.label) (k c : Z) (ax : Mpl.axes)
    (j : Z) :
  ~ (k <= j < k + Z.of_nat (List.length l)) ->
  shaded (Py.for_break (Py.enumerate_from k l) body (c, ax)).2 j = shaded ax j.
Proof.
  intros Hj.
  destruct (alt_rows_loop_spans headers_exist yticklabels groups row_color
              l k c ax) as (added & Hs & Hall & _).
  rewrite (shaded_spans _ _ _ _ Hs).
  assert (existsb (covers j) added = false) as ->; [|apply orb_false_r].
  clear Hs. induction Hall as [|sp added (i & -> & Hi & _) _ IH]; [done|].
  simpl. rewrite covers_band, IH.
  rewrite bool_decide_eq_false_2; [done|]. intros ->. by apply Hj.
Qed.

(** A run of ordinary rows that the loop does not leave: the counter goes
    up by one a row, and a row is shaded when the counter is even at it. *)
Lemma alt_rows_ordinary_run (l : list Mpl.label) (k c : Z) (ax : Mpl.axes) :
  Forall (fun t => is_group_label groups t = false) l ->
  (headers_exist = true -> k + Z.of_nat (List.length l) <= last_ix) ->
  (Py.for_break (Py.enumerate_from k l) body (c, ax)).1
  = c + Z.of_nat (List.length l)
  /\ forall j, k <= j < k + Z.of_nat (List.length l) ->
       shaded (Py.for_break (Py.enumerate_from k l) body (c, ax)).2 j
       = shaded ax j || Z.even (c + (j - k)).
Proof.
  intros Hl. revert k c ax.
  induction Hl as [|t l Ht _ IH]; intros k c ax Hlast.
  - simpl. split; [lia|]. intros j Hj. lia.
  - rewrite alt_rows_loop_cons.
    assert (headers_exist && bool_decide (k = Z.of_nat (List.length yticklabels) - 1)
            = false) as ->.
    { destruct headers_exist; [|done]. apply bool_decide_eq_false.
      specialize (Hlast eq_refl). simpl in Hlast. lia. }
    rewrite Ht.
    set (ax1 := if c mod 2 =? 0
                then Mpl.axhspan (inject_Z k - (1 # 2)) (inject_Z k + (1 # 2))
                       row_color (8 # 100) 0 ax
                else ax).
    assert (Hax1 : forall j, shaded ax1 j
                             = shaded ax j || (Z.even c && bool_decide (j = k))).
    { intros j. unfold ax1. rewrite Zeven_mod.
      destruct (c mod 2 =? 0); simpl.
      - apply shaded_axhspan.
      - by rewrite orb_false_r. }
    destruct (IH (k + 1) (c + 1) ax1) as [Hc Hsh].
    { intros Hh. specialize (Hlast Hh). simpl in Hlast. lia. }
    split; [rewrite Hc; simpl; lia|].
    intros j Hj. destruct (decide (j = k)) as [->|Hne].
    + rewrite alt_rows_loop_outside by lia.
      rewrite Hax1, bool_decide_eq_true_2, andb_true_r by done.
      by rewrite Z.sub_diag, Z.add_0_r.
    + rewrite Hsh by (simpl in Hj; lia).
      rewrite Hax1, bool_decide_eq_false_2, andb_false_r, orb_false_r by done.
      f_equal. f_equal. lia.
Qed.

(** What the loop adds: bands of ordinary rows it visits, never of the
    header row; the rest of the axes stays. *)
Lemma alt_rows_loop_added (l : list Mpl.label) (k c : Z) (ax : Mpl.axes) :
  exists added,
    (Py.for_break (Py.enumerate_from k l) body (c, ax)).2 = with_spans ax added
    /\ Forall (fun sp => exists j t,
                 sp = band row_color j
                 /\ (j, t) ∈ Py.enumerate_from k l
                 /\ is_group_label groups t = false
                 /\ (headers_exist = true -> j <> last_ix)) added.
Proof.
  assert (Hnil : forall ax0, ax0 = with_spans ax0 []).
  { intros [] . unfold with_spans. simpl. by rewrite app_nil_r. }
  revert k c ax. induction l as [|t l IH]; intros k c ax.
  - exists []. simpl. auto.
  - rewrite alt_rows_loop_cons.
    destruct (headers_exist && bool_decide (k = Z.of_nat (List.length yticklabels) - 1))
      eqn:Hbrk.
    { exists []. simpl. auto. }
    assert (Hk : headers_exist = true -> k <> last_ix).
    { intros ->. simpl in Hbrk. by apply bool_decide_eq_false in Hbrk. }
    assert (Hup : forall added,
      Forall (fun sp => exists j u,
                 sp = band row_color j
                 /\ (j, u) ∈ Py.enumerate_from (k + 1) l
                 /\ is_group_label groups u = false
                 /\ (headers_exist = true -> j <> last_ix)) added ->
      Forall (fun sp => exists j u,
                 sp = band row_color j
                 /\ (j, u) ∈ Py.enumerate_from k (t :: l)
                 /\ is_group_label groups u = false
                 /\ (headers_exist = true -> j <> last_ix)) added).
    { intros added Hall. eapply Forall_impl; [exact Hall|].
      intros sp (j & u & ? & ? & ? & ?). exists j, u. simpl.
      repeat split; auto. by right. }
    destruct (is_group_label groups t) eqn:Hg.
    + destruct (IH (k + 1) 2 ax) as (added & Hs & Hall). exists added. auto.
    + destruct (c mod 2 =? 0).
      * destruct (IH (k + 1) (c + 1)
                    (Mpl.axhspan (inject_Z k - (1 # 2)) (inject_Z k + (1 # 2))
                       row_color (8 # 100) 0 ax)) as (added & Hs & Hall).
        exists (band row_color k :: added). split.
        -- rewrite Hs. unfold with_spans, Mpl.axhspan. simpl.
           by rewrite <- app_assoc.
        -- constructor; [|auto]. exists k, t. simpl.
           repeat split; auto. by left.
      * destruct (IH (k + 1) (c + 1) ax) as (added & Hs & Hall).
        exists added. auto.
Qed.

End AltRowsRuns.

(** X1.  Where no tick label names a group, [draw_alt_row_colors] shades
    every other row, starting with the second one (tick 1): the loop adds
    a band exactly at the odd ticks, and with a header row not at the
    last tick. *)
Theorem alt_rows_without_groups_alternate (dataframe : Frame.t)
    (groupvar : option string)
    (annoteheaders right_annoteheaders : option (list string))
    (ax : Mpl.axes) (kwargs : gmap string Py.val) (groups : list string) :
  alt_row_groups dataframe groupvar = Ok groups ->
  Forall (fun t => is_group_label groups t = false) (Mpl.get_yticklabels ax) ->
  exists ax',
    draw_alt_row_colors dataframe groupvar annoteheaders right_annoteheaders
      ax kwargs = Ok ax'
    /\ forall j, 0 <= j < Z.of_nat (List.length (Mpl.get_yticklabels ax)) ->
         shaded ax' j
         = shaded ax j
           || (Z.odd j
               && negb ((is_not_None annoteheaders
                         || is_not_None right_annoteheaders)
                        && bool_decide
                             (j = Z.of_nat (List.length (Mpl.get_yticklabels ax)) - 1))).
Proof.
  intros Hg Hall. eexists. split; [by apply draw_alt_row_colors_ok|].
  set (he := is_not_None annoteheaders || is_not_None right_annoteheaders).
  set (ticks := Mpl.get_yticklabels ax) in *.
  set (color := Py.kwargs_get kwargs "row_color" (VStr "black")).
  assert (Hodd : forall j, Z.even (1 + (j - 0)) = Z.odd j).
  { intros j. rewrite Z.sub_0_r.
    replace (1 + j) with (Z.succ j) by lia. apply Z.even_succ. }
  intros j Hj. unfold Py.enumerate. destruct he eqn:Hhe; simpl.
  - destruct ticks as [|t0 l _] eqn:Hticks using rev_ind; [simpl in Hj; lia|].
    apply Forall_app in Hall as [Hl _].
    rewrite length_app in Hj |- *. simpl in Hj |- *.
    rewrite enumerate_from_app, for_break_app.
    2:{ apply alt_rows_no_break. intros _. rewrite length_app. simpl. lia. }
    rewrite Z.add_0_l.
    destruct (alt_rows_ordinary_run true (l ++ [t0]) groups color l 0 1 ax Hl)
      as [_ Hsh].
    { intros _. rewrite length_app. simpl. lia. }
    destruct (Py.for_break (Py.enumerate_from 0 l) _ (1, ax)) as [c1 ax1] eqn:Hrun.
    rewrite alt_rows_loop_cons.
    rewrite length_app. simpl.
    rewrite (bool_decide_eq_true_2 (Z.of_nat (List.length l)
                                    = Z.of_nat (List.length l + 1) - 1)) by lia.
    simpl. simpl in Hsh.
    case_bool_decide as Hlast; simpl.
    + rewrite andb_false_r, orb_false_r.
      pose proof (alt_rows_loop_outside true (l ++ [t0]) groups color l 0 1 ax j)
        as Hout.
      rewrite Hrun in Hout. simpl in Hout. apply Hout. lia.
    + rewrite andb_true_r, <- Hodd. apply Hsh. lia.
  - rewrite andb_true_r, <- Hodd.
    destruct (alt_rows_ordinary_run false ticks groups color ticks 0 1 ax Hall)
      as [_ Hsh]; [done|].
    apply Hsh. lia.
Qed.

(** X1 on three ticks without groups and without a header row: only the
    middle one is shaded. *)
Lemma alt_rows_without_groups_alternate_witness :
  exists ax',
    draw_alt_row_colors [] None None None
      (Example.axes_of [Example.tick "a"; Example.tick "b"; Example.tick "c"])
      ∅ = Ok ax'
    /\ List.map (shaded ax') [0; 1; 2] = [false; true; false].
Proof.
  destruct (alt_rows_without_groups_alternate [] None None None
              (Example.axes_of
                 [Example.tick "a"; Example.tick "b"; Example.tick "c"])
              ∅ []) as (ax' & H & Hsh).
  - reflexivity.
  - repeat constructor.
  - exists ax'. split; [exact H|].
    simpl. rewrite !Hsh by (simpl; lia). reflexivity.
Defined.

(** X2.  After a group row the alternation starts again, whatever came
    before: of the ordinary rows that follow the group row without a break,
    the first, third, ... are shaded by the loop and the second,
    fourth, ... are not. *)
Theorem alt_rows_parity_restarts_at_group (dataframe : Frame.t)
    (groupvar : option string)
    (annoteheaders right_annoteheaders : option (list string))
    (ax : Mpl.axes) (kwargs : gmap string Py.val) (groups : list string)
    (i m : nat) (t : Mpl.label) :
  alt_row_groups dataframe groupvar = Ok groups ->
  Mpl.get_yticklabels ax !! i = Some t ->
  is_group_label groups t = true ->
  (forall d, (1 <= d <= m)%nat ->
     exists u, Mpl.get_yticklabels ax !! (i + d)%nat = Some u
               /\ is_group_label groups u = false) ->
  (is_not_None annoteheaders || is_not_None right_annoteheaders = true ->
   (i + m + 1 < List.length (Mpl.get_yticklabels ax))%nat) ->
  exists ax',
    draw_alt_row_colors dataframe groupvar annoteheaders right_annoteheaders
      ax kwargs = Ok ax'
    /\ forall d, (1 <= d <= m)%nat ->
         shaded ax' (Z.of_nat (i + d))
         = shaded ax (Z.of_nat (i + d)) || Nat.odd d.
Proof.
  intros Hg Ht Hgt Hmid Hlast.
  eexists. split; [by apply draw_alt_row_colors_ok|].
  set (he := is_not_None annoteheaders || is_not_None right_annoteheaders) in *.
  set (ticks := Mpl.get_yticklabels ax) in *.
  set (color := Py.kwargs_get kwargs "row_color" (VStr "black")).
  set (mid := take m (drop (S i) ticks)).
  set (post := drop m (drop (S i) ticks)).
  assert (Hsplit : ticks = (take i ticks ++ t :: mid ++ post)%list).
  { unfold mid, post. rewrite take_drop.
    by rewrite (take_drop_middle ticks i t Ht). }
  assert (Hlen_pre : List.length (take i ticks) = i).
  { rewrite length_take. apply lookup_lt_Some in Ht. lia. }
  assert (Hm : forall d, (1 <= d <= m)%nat ->
            exists u, mid !! (d - 1)%nat = Some u
                      /\ is_group_label groups u = false).
  { intros d Hd. destruct (Hmid d Hd) as (u & Hu & Hgu). exists u.
    split; [|done]. unfold mid.
    rewrite lookup_take_lt by lia. rewrite lookup_drop.
    by replace (S i + (d - 1))%nat with (i + d)%nat by lia. }
  assert (Hlen_mid : List.length mid = m).
  { destruct m as [|m']; [by unfold mid; rewrite take_0|].
    destruct (Hm (S m')) as (u & Hu & _); [lia|].
    apply lookup_lt_Some in Hu.
    assert (List.length mid <= S m')%nat by (unfold mid; rewrite length_take; lia).
    lia. }
  assert (Hord : Forall (fun u => is_group_label groups u = false) mid).
  { apply Forall_lookup. intros n u Hn.
    pose proof (lookup_lt_Some _ _ _ Hn) as Hlt.
    destruct (Hm (S n)) as (u' & Hu' & Hgu'); [lia|].
    simpl in Hu'. rewrite Nat.sub_0_r in Hu'. congruence. }
  assert (Hn : List.length ticks
               = (i + 1 + m + List.length post)%nat).
  { rewrite Hsplit at 1. rewrite length_app, Hlen_pre. simpl.
    rewrite length_app, Hlen_mid. lia. }
  intros d Hd. unfold Py.enumerate.
  rewrite Hsplit at 1.
  rewrite enumerate_from_app, for_break_app.
  2:{ apply alt_rows_no_break. intros Hh. specialize (Hlast Hh).
      rewrite Hlen_pre. fold ticks. lia. }
  rewrite Hlen_pre, Z.add_0_l.
  pose proof (alt_rows_loop_outside he ticks groups color (take i ticks) 0 1 ax
                (Z.of_nat (i + d))) as Hpre.
  destruct (Py.for_break (Py.enumerate_from 0 (take i ticks)) _ (1, ax))
    as [c1 ax1].
  simpl in Hpre. rewrite <- Hpre by (rewrite Hlen_pre; lia). clear Hpre.
  rewrite alt_rows_loop_cons.
  assert (he && bool_decide (Z.of_nat i = Z.of_nat (List.length ticks) - 1)
          = false) as ->.
  { destruct he; [|done]. apply bool_decide_eq_false.
    specialize (Hlast eq_refl). lia. }
  rewrite Hgt.
  rewrite enumerate_from_app, for_break_app.
  2:{ apply alt_rows_no_break. intros Hh. specialize (Hlast Hh).
      rewrite Hlen_mid. lia. }
  destruct (alt_rows_ordinary_run he ticks groups color mid
              (Z.of_nat i + 1) 2 ax1 Hord) as [_ Hsh].
  { intros Hh. specialize (Hlast Hh). rewrite Hlen_mid. lia. }
  destruct (Py.for_break (Py.enumerate_from (Z.of_nat i + 1) mid) _ (2, ax1))
    as [c2 ax2] eqn:Hrun.
  rewrite alt_rows_loop_outside by (rewrite Hlen_mid; lia).
  simpl in Hsh. rewrite Hsh by (rewrite Hlen_mid; lia).
  f_equal.
  replace (2 + (Z.of_nat (i + d) - (Z.of_nat i + 1))) with (Z.succ (Z.of_nat d))
    by lia.
  rewrite Z.even_succ. apply parity_of_nat.
Qed.

(** X2 on the example: of [x1] and [x2], which follow the group row [A],
    the first is shaded and the second is not. *)
Lemma alt_rows_parity_restarts_at_group_witness :
  exists ax',
    draw_alt_row_colors Example.rows (Some "group") None None Example.ax ∅
    = Ok ax'
    /\ shaded ax' 1 = true /\ shaded ax' 2 = false.
Proof.
  destruct (alt_rows_parity_restarts_at_group Example.rows (Some "group")
              None None Example.ax ∅ ["a"; "b"] 0 2 (Example.tick "A"))
    as (ax' & H & Hsh); try reflexivity.
  - intros [|[|[|d]]] Hd; try lia; eexists; split; reflexivity.
  - simpl. intros H. discriminate H.
  - exists ax'. split; [exact H|].
    split; [apply (Hsh 1%nat); lia|apply (Hsh 2%nat); lia].
Defined.

(** X3.  [draw_alt_row_colors] only adds bands: the limits, the tick
    labels, the texts and the rest of the axes stay as they are.  Every
    band it adds belongs to a tick whose label names no group, and with a
    header row never to the last tick. *)
Theorem alt_rows_only_adds_bands_of_ordinary_rows (dataframe : Frame.t)
    (groupvar : option string)
    (annoteheaders right_annoteheaders : option (list string))
    (ax : Mpl.axes) (kwargs : gmap string Py.val) (groups : list string) :
  alt_row_groups dataframe groupvar = Ok groups ->
  exists added,
    draw_alt_row_colors dataframe groupvar annoteheaders right_annoteheaders
      ax kwargs = Ok (with_spans ax added)
    /\ Forall (fun sp => exists (j : nat) (t : Mpl.label),
                 sp = band (Py.kwargs_get kwargs "row_color" (VStr "black"))
                        (Z.of_nat j)
                 /\ Mpl.get_yticklabels ax !! j = Some t
                 /\ is_group_label groups t = false
                 /\ (is_not_None annoteheaders
                     || is_not_None right_annoteheaders = true ->
                     (S j < List.length (Mpl.get_yticklabels ax))%nat))
         added.
Proof.
  intros Hg. rewrite (draw_alt_row_colors_ok _ _ _ _ _ _ _ Hg).
  destruct (alt_rows_loop_added
              (is_not_None annoteheaders || is_not_None right_annoteheaders)
              (Mpl.get_yticklabels ax) groups
              (Py.kwargs_get kwargs "row_color" (VStr "black"))
              (Mpl.get_yticklabels ax) 0 1 ax) as (added & Hs & Hall).
  exists added. split; [by rewrite <- Hs|].
  eapply Forall_impl; [exact Hall|].
  intros sp (j & t & -> & Hin & Hgt & Hlast).
  apply elem_of_enumerate_from in Hin as [Hj Ht].
  rewrite Z.sub_0_r in Ht.
  exists (Z.to_nat j), t. rewrite Z2Nat.id by lia.
  repeat split; try done.
  intros Hh. specialize (Hlast Hh). lia.
Qed.

Lemma alt_rows_only_adds_bands_of_ordinary_rows_witness :
  exists added,
    draw_alt_row_colors Example.rows (Some "group") None None Example.ax ∅
    = Ok (with_spans Example.ax added)
    /\ List.length added = 2%nat.
Proof.
  destruct (alt_rows_only_adds_bands_of_ordinary_rows Example.rows
              (Some "group") None None Example.ax ∅ ["a"; "b"])
    as (added & H & _); [reflexivity|].
  exists added. split; [exact H|].
  vm_compute in H. injection H as H. 
  apply (f_equal (@List.length Mpl.span)) in H. simpl in H. lia.
Defined.

(** ** Missing columns *)

Lemma col_ok (df : Frame.t) (column : string) :
  Forall (fun r => is_Some (Frame.cells r !! column)) df ->
  exists vs, Frame.col df column = Ok vs.
Proof.
  induction 1 as [|r df [v Hv] _ [vs IH]]; simpl; [eauto|].
  unfold Frame.get. rewrite Hv. simpl. rewrite IH. simpl. eauto.
Qed.

Lemma col_keyerror (df : Frame.t) (column : string) :
  ~ Forall (fun r => is_Some (Frame.cells r !! column)) df ->
  Frame.col df column = Raise KeyError.
Proof.
  induction df as [|r df IH]; intros Hno; simpl.
  - destruct Hno. constructor.
  - unfold Frame.get. destruct (Frame.cells r !! column) as [v|] eqn:Hv;
      [|done]. simpl.
    rewrite IH; [done|]. intros Hall. apply Hno. constructor; [eauto|done].
Qed.

(** X4.  When a row of the table lacks the group column,
    [draw_alt_row_colors] raises [KeyError]; [format_grouplabels] reads
    the column once a tick, so it raises [KeyError] when there is a tick
    label, and returns the axes as they are when there is none. *)
Theorem group_column_missing (dataframe : Frame.t) (groupvar : string)
    (annoteheaders right_annoteheaders : option (list string))
    (ax : Mpl.axes) (kwargs : gmap string Py.val) :
  ~ Forall (fun r => is_Some (Frame.cells r !! groupvar)) dataframe ->
  draw_alt_row_colors dataframe (Some groupvar) annoteheaders
    right_annoteheaders ax kwargs = Raise KeyError
  /\ (Mpl.get_yticklabels ax <> [] ->
      format_grouplabels dataframe (Some groupvar) ax kwargs = Raise KeyError)
  /\ (Mpl.get_yticklabels ax = [] ->
      format_grouplabels dataframe (Some groupvar) ax kwargs = Ok ax).
Proof.
  intros Hno. pose proof (col_keyerror _ _ Hno) as Hcol.
  split; [|split].
  - unfold draw_alt_row_colors, alt_row_groups. by rewrite Hcol.
  - intros Hne. unfold format_grouplabels.
    destruct (Mpl.get_yticklabels ax) as [|t l]; [done|].
    simpl. by rewrite Hcol.
  - intros Hnil. unfold format_grouplabels. by rewrite Hnil.
Qed.

Lemma group_column_missing_witness :
  draw_alt_row_colors Example.rows (Some "grp") None None Example.ax ∅
  = Raise KeyError
  /\ format_grouplabels Example.rows (Some "grp") Example.ax ∅ = Raise KeyError.
Proof.
  destruct (group_column_missing Example.rows "grp" None None Example.ax ∅)
    as (H1 & H2 & _).
  - intros H. apply Forall_inv in H. destruct H as [v Hv].
    vm_compute in Hv. discriminate Hv.
  - split; [exact H1|]. apply H2. simpl. discriminate.
Defined.

(** ** More on the tick label formatting *)

Lemma alter_alter {A} (f g : A -> A) (i : nat) (l : list A) :
  alter f i (alter g i l) = alter (fun x => f (g x)) i l.
Proof.
  revert i. induction l as [|a l IH]; intros [|i]; simpl; try done.
  f_equal. apply IH.
Qed.

Lemma with_yticklabels_twice (l l' : list Mpl.label) (ax : Mpl.axes) :
  Mpl.with_yticklabels l (Mpl.with_yticklabels l' ax) = Mpl.with_yticklabels l ax.
Proof. done. Qed.

Lemma with_yticklabels_same (ax : Mpl.axes) :
  Mpl.with_yticklabels (Mpl.get_yticklabels ax) ax = ax.
Proof. by destruct ax. Qed.

Lemma existsb_unique (f : Py.val -> bool) (l : list Py.val) :
  existsb f (Frame.unique l) = existsb f l.
Proof.
  induction l as [|v l IH]; simpl; [done|]. rewrite <- IH.
  generalize (Frame.unique l) as u. clear IH.
  induction u as [|w u IHu]; simpl; [done|].
  case_bool_decide as Hw; simpl.
  - rewrite orb_assoc, (orb_comm (f v)), <- orb_assoc, IHu.
    by rewrite orb_assoc, (orb_comm (f w)), <- orb_assoc.
  - subst w. rewrite IHu.
    by rewrite orb_assoc, orb_diag.
Qed.

Lemma as_grouplabel_text (kwargs : gmap string Py.val) (t : Mpl.label) :
  Mpl.get_text (as_grouplabel kwargs t) = Mpl.get_text t.
Proof. done. Qed.

Lemma names_group_text (column : list Py.val) (t t' : Mpl.label) :
  Mpl.get_text t = Mpl.get_text t' ->
  names_group column t = names_group column t'.
Proof. intros H. unfold names_group. by rewrite H. Qed.

Lemma as_grouplabel_idemp (kwargs : gmap string Py.val) (t : Mpl.label) :
  as_grouplabel kwargs (as_grouplabel kwargs t) = as_grouplabel kwargs t.
Proof. done. Qed.

Section GroupLabels.

Variables (kwargs : gmap string Py.val).

(** The loop of [format_grouplabels] over the group values, for one tick. *)
Lemma grouplabels_inner_loop (ix : Z) (ylabel : Mpl.label)
    (gl : list Py.val) (ax : Mpl.axes) :
  0 <= ix < Z.of_nat (List.length (Mpl.get_yticklabels ax)) ->
  Py.for_each gl (fun gr ax =>
    Py.try_except
      (gr_lower ← Py.lower gr;
       if bool_decide
            (gr_lower = Py.str_strip (Py.str_lower (Mpl.get_text ylabel)))
       then
         ax ← Mpl.modify_yticklabel ix
                (Mpl.set_fontweight
                   (Py.kwargs_get kwargs "grouplab_fontweight" (VStr "bold"))) ax;
         Mpl.modify_yticklabel ix
           (Mpl.set_fontsize (Py.kwargs_get kwargs "grouplab_size" (VInt 10))) ax
       else Ok ax)
      AttributeError
      (Ok ax)) ax
  = Ok (if names_group gl ylabel
        then Mpl.with_yticklabels
               (alter (as_grouplabel kwargs) (Z.to_nat ix) (Mpl.get_yticklabels ax))
               ax
        else ax).
Proof.
  revert ax. induction gl as [|gr gl IH]; intros ax Hix; simpl; [done|].
  assert (Hstep : forall ax0,
    0 <= ix < Z.of_nat (List.length (Mpl.get_yticklabels ax0)) ->
    (ax1 ← Mpl.modify_yticklabel ix
             (Mpl.set_fontweight
                (Py.kwargs_get kwargs "grouplab_fontweight" (VStr "bold"))) ax0;
     Mpl.modify_yticklabel ix
       (Mpl.set_fontsize (Py.kwargs_get kwargs "grouplab_size" (VInt 10))) ax1)
    = Ok (Mpl.with_yticklabels
            (alter (as_grouplabel kwargs) (Z.to_nat ix) (Mpl.get_yticklabels ax0))
            ax0)).
  { intros ax0 H0. rewrite modify_yticklabel_in_range by done. simpl.
    rewrite modify_yticklabel_in_range by (simpl; by rewrite length_alter).
    simpl. by rewrite alter_alter. }
  destruct gr as [| |s|z]; simpl; try (by apply IH).
  case_bool_decide as Hs; simpl; [|by apply IH].
  rewrite (Hstep ax Hix). simpl. rewrite IH by (simpl; by rewrite length_alter).
  simpl. destruct (names_group gl ylabel); [|done].
  rewrite alter_alter. done.
Qed.

(** The loop of [format_grouplabels] over the ticks, once the group column
    is read. *)
Lemma grouplabels_outer_loop (column : list Py.val)
    (rest done : list Mpl.label) (ax : Mpl.axes) :
  Mpl.get_yticklabels ax = (done ++ rest)%list ->
  Py.for_each (Py.enumerate_from (Z.of_nat (List.length done)) rest)
    (fun (tick : Z * Mpl.label) ax =>
       let (ix, ylabel) := tick in
       Py.for_each (Frame.unique column) (fun gr ax =>
         Py.try_except
           (gr_lower ← Py.lower gr;
            if bool_decide
                 (gr_lower = Py.str_strip (Py.str_lower (Mpl.get_text ylabel)))
            then
              ax ← Mpl.modify_yticklabel ix
                     (Mpl.set_fontweight
                        (Py.kwargs_get kwargs "grouplab_fontweight"
                           (VStr "bold"))) ax;
              Mpl.modify_yticklabel ix
                (Mpl.set_fontsize
                   (Py.kwargs_get kwargs "grouplab_size" (VInt 10))) ax
            else Ok ax)
           AttributeError
           (Ok ax)) ax) ax
  = Ok (Mpl.with_yticklabels
          (done
           ++ List.map (fun t => if names_group column t
                                 then as_grouplabel kwargs t else t) rest)
          ax).
Proof.
  revert done ax.
  induction rest as [|t rest IH]; intros done ax Hticks.
  - simpl. rewrite <- Hticks. by rewrite with_yticklabels_same.
  - cbn [Py.enumerate_from Py.for_each].
    rewrite grouplabels_inner_loop
      by (rewrite Hticks, length_app; simpl; lia).
    unfold names_group at 1. rewrite existsb_unique.
    fold (names_group column t).
    set (g := fun t => if names_group column t then as_grouplabel kwargs t else t).
    set (ax1 := if names_group column t then _ else ax).
    assert (Hax1 : ax1 = Mpl.with_yticklabels ((done ++ [g t]) ++ rest) ax).
    { unfold ax1, g. destruct (names_group column t).
      - rewrite Hticks, Nat2Z.id.
        rewrite <- (Nat.add_0_r (List.length done)), alter_app_r. simpl.
        by rewrite <- app_assoc.
      - rewrite <- app_assoc. simpl. rewrite <- Hticks.
        by rewrite with_yticklabels_same. }
    replace (Z.of_nat (List.length done) + 1)
      with (Z.of_nat (List.length (done ++ [g t])))
      by (rewrite length_app; simpl; lia).
    cbn [Py.bind].
    rewrite (IH (done ++ [g t])%list ax1) by (by rewrite Hax1).
    rewrite Hax1, with_yticklabels_twice, <- app_assoc. done.
Qed.

End GroupLabels.

(** X5.  [format_grouplabels] gives the group-label weight and size to
    exactly the tick labels that name a group: those whose text, lowered
    and stripped, is a string of the group column, lowered.  The other
    tick labels, every text and alignment, and the rest of the axes stay
    as they are; values of the group column that are not strings are
    passed over. *)
Theorem format_grouplabels_formats_group_ticks (dataframe : Frame.t)
    (groupvar : string) (ax : Mpl.axes) (kwargs : gmap string Py.val)
    (column : list Py.val) :
  Frame.col dataframe groupvar = Ok column ->
  format_grouplabels dataframe (Some groupvar) ax kwargs
  = Ok (Mpl.with_yticklabels
          (List.map (fun t => if names_group column t
                              then as_grouplabel kwargs t else t)
             (Mpl.get_yticklabels ax))
          ax).
Proof.
  intros Hcol. unfold format_grouplabels, Py.enumerate.
  rewrite Hcol. simpl.
  by apply (grouplabels_outer_loop kwargs column (Mpl.get_yticklabels ax) [] ax).
Qed.

Lemma format_grouplabels_formats_group_ticks_witness :
  exists ax',
    format_grouplabels Example.rows (Some "group") Example.ax ∅ = Ok ax'
    /\ List.map Mpl.get_fontsize (Mpl.get_yticklabels ax')
       = [VInt 10; VInt 9; VInt 9; VInt 10; VInt 9].
Proof.
  eexists. split.
  - apply (format_grouplabels_formats_group_ticks Example.rows "group"
             Example.ax ∅ [VStr "A"; VNone; VNone; VStr "B"; VNone]).
    reflexivity.
  - reflexivity.
Defined.

(** X6.  [format_grouplabels] is idempotent: on its own result it changes
    nothing. *)
Theorem format_grouplabels_idempotent (dataframe : Frame.t)
    (groupvar : option string) (ax ax' : Mpl.axes)
    (kwargs : gmap string Py.val) :
  format_grouplabels dataframe groupvar ax kwargs = Ok ax' ->
  format_grouplabels dataframe groupvar ax' kwargs = Ok ax'.
Proof.
  destruct groupvar as [gv|]; [|by intros [= <-]].
  destruct (Frame.col dataframe gv) as [column|e] eqn:Hcol.
  - rewrite (format_grouplabels_formats_group_ticks _ _ _ _ _ Hcol).
    intros [= <-].
    rewrite (format_grouplabels_formats_group_ticks _ _ _ _ _ Hcol).
    simpl. rewrite with_yticklabels_twice. do 2 f_equal.
    rewrite List.map_map. apply List.map_ext. intros t.
    destruct (names_group column t) eqn:Ht.
    + by rewrite (names_group_text column _ t), Ht.
    + by rewrite Ht.
  - unfold format_grouplabels.
    destruct (Mpl.get_yticklabels ax) as [|t l] eqn:Hticks.
    + simpl. intros [= <-]. by rewrite Hticks.
    + simpl. by rewrite Hcol.
Qed.

Lemma format_grouplabels_idempotent_witness :
  exists ax',
    format_grouplabels Example.rows (Some "group") Example.ax ∅ = Ok ax'
    /\ format_grouplabels Example.rows (Some "group") ax' ∅ = Ok ax'.
Proof.
  eexists. split; [vm_compute; reflexivity|].
  apply (format_grouplabels_idempotent Example.rows (Some "group") Example.ax).
  vm_compute. reflexivity.
Defined.

Lemma bind_Ok {A B} (a : A) (k : A -> Py.result B) : (Ok a ≫= k) = k a.
Proof. done. Qed.

Lemma format_tableheader_snoc
    (annoteheaders right_annoteheaders : option (list string))
    (ax : Mpl.axes) (kwargs : gmap string Py.val)
    (l : list Mpl.label) (t0 : Mpl.label) :
  is_not_None annoteheaders || is_not_None right_annoteheaders = true ->
  Mpl.get_yticklabels ax = (l ++ [t0])%list ->
  format_tableheader annoteheaders right_annoteheaders ax kwargs
  = Ok (Mpl.with_yticklabels (l ++ [as_tableheader kwargs t0]) ax).
Proof.
  intros Hh Hticks. unfold format_tableheader. rewrite Hh.
  assert (Hlen : Z.of_nat (List.length (Mpl.get_yticklabels ax)) - 1
                 = Z.of_nat (List.length l)).
  { rewrite Hticks, length_app. simpl. lia. }
  rewrite Hlen.
  rewrite modify_yticklabel_in_range
    by (rewrite Hticks, length_app; simpl; lia).
  simpl. rewrite modify_yticklabel_in_range
    by (simpl; rewrite length_alter, Hticks, length_app; simpl; lia).
  simpl. rewrite alter_alter, Hticks, Nat2Z.id.
  rewrite <- (Nat.add_0_r (List.length l)), alter_app_r. done.
Qed.

(** X7.  With a header row, [format_tableheader] changes the last tick
    label only, and of it the weight and the size only: the other tick
    labels and the rest of the axes stay as they are.  Without headers it
    changes nothing. *)
Theorem format_tableheader_changes_last_label_only
    (annoteheaders right_annoteheaders : option (list string))
    (ax : Mpl.axes) (kwargs : gmap string Py.val)
    (l : list Mpl.label) (t0 : Mpl.label) :
  Mpl.get_yticklabels ax = (l ++ [t0])%list ->
  format_tableheader annoteheaders right_annoteheaders ax kwargs
  = Ok (if is_not_None annoteheaders || is_not_None right_annoteheaders
        then Mpl.with_yticklabels
               (l ++ [ {| Mpl.get_text := Mpl.get_text t0;
                          Mpl.get_ha := Mpl.get_ha t0;
                          Mpl.get_fontfamily := Mpl.get_fontfamily t0;
                          Mpl.get_fontweight :=
                            Py.kwargs_get kwargs "tableheader_fontweight"
                              (VStr "bold");
                          Mpl.get_fontsize :=
                            Py.kwargs_get kwargs "tableheader_fontsize"
                              (VInt 10) |} ])
               ax
        else ax).
Proof.
  intros Hticks.
  destruct (is_not_None annoteheaders || is_not_None right_annoteheaders)
    eqn:Hh.
  - by rewrite (format_tableheader_snoc _ _ _ _ l t0 Hh Hticks).
  - unfold format_tableheader. by rewrite Hh.
Qed.

Lemma format_tableheader_changes_last_label_only_witness :
  exists ax',
    format_tableheader None (Some ["p"]) Example.ax ∅ = Ok ax'
    /\ List.map Mpl.get_fontweight (Mpl.get_yticklabels ax')
       = [VStr "normal"; VStr "normal"; VStr "normal"; VStr "normal";
          VStr "bold"].
Proof.
  eexists. split.
  - apply (format_tableheader_changes_last_label_only None (Some ["p"])
             Example.ax ∅
             [Example.tick "A"; Example.tick "x1"; Example.tick "x2";
              Example.tick "B"] (Example.tick "x3")).
    reflexivity.
  - reflexivity.
Defined.

(** X8.  With a header row and no tick label at all, [format_tableheader]
    raises [IndexError]: it asks for the tick label at index [-1] of an
    empty list. *)
Theorem format_tableheader_no_ticks
    (annoteheaders right_annoteheaders : option (list string))
    (ax : Mpl.axes) (kwargs : gmap string Py.val) :
  is_not_None annoteheaders || is_not_None right_annoteheaders = true ->
  Mpl.get_yticklabels ax = [] ->
  format_tableheader annoteheaders right_annoteheaders ax kwargs
  = Raise IndexError.
Proof.
  intros Hh Hnil. unfold format_tableheader, Mpl.modify_yticklabel.
  by rewrite Hh, Hnil.
Qed.

Lemma format_tableheader_no_ticks_witness :
  format_tableheader (Some ["N"]) None (Example.axes_of []) ∅
  = Raise IndexError.
Proof.
  apply (format_tableheader_no_ticks (Some ["N"]) None (Example.axes_of []) ∅);
    reflexivity.
Defined.

(** X9.  The order of the two formatting passes matters exactly at a
    header row whose label names a group.  [format_tableheader] after
    [format_grouplabels] leaves the last tick label with the header
    weight and size; [format_grouplabels] after [format_tableheader]
    leaves it with the group-label weight and size when it names a group,
    and with the header ones otherwise.  The other tick labels come out
    the same both ways. *)
Theorem header_and_group_formatting_order (dataframe : Frame.t)
    (groupvar : string)
    (annoteheaders right_annoteheaders : option (list string))
    (ax : Mpl.axes) (kwargs : gmap string Py.val)
    (column : list Py.val) (l : list Mpl.label) (t0 : Mpl.label) :
  is_not_None annoteheaders || is_not_None right_annoteheaders = true ->
  Frame.col dataframe groupvar = Ok column ->
  Mpl.get_yticklabels ax = (l ++ [t0])%list ->
  let g := fun t => if names_group column t then as_grouplabel kwargs t else t in
  (ax1 ← format_grouplabels dataframe (Some groupvar) ax kwargs;
   format_tableheader annoteheaders right_annoteheaders ax1 kwargs)
  = Ok (Mpl.with_yticklabels (List.map g l ++ [as_tableheader kwargs t0]) ax)
  /\ (ax1 ← format_tableheader annoteheaders right_annoteheaders ax kwargs;
      format_grouplabels dataframe (Some groupvar) ax1 kwargs)
     = Ok (Mpl.with_yticklabels
             (List.map g l
              ++ [if names_group column t0 then as_grouplabel kwargs t0
                  else as_tableheader kwargs t0])
             ax).
Proof.
  intros Hh Hcol Hticks g. split.
  - rewrite (format_grouplabels_formats_group_ticks _ _ _ _ _ Hcol), bind_Ok.
    rewrite (format_tableheader_snoc _ _ _ _ (List.map g l) (g t0) Hh)
      by (simpl; by rewrite Hticks, List.map_app).
    rewrite with_yticklabels_twice. do 3 f_equal.
    unfold g. by destruct (names_group column t0).
  - rewrite (format_tableheader_snoc _ _ _ _ l t0 Hh Hticks), bind_Ok.
    rewrite (format_grouplabels_formats_group_ticks _ _ _ _ _ Hcol).
    rewrite with_yticklabels_twice.
    change (Mpl.get_yticklabels (Mpl.with_yticklabels ?x _)) with x.
    rewrite List.map_app. simpl.
    rewrite (names_group_text column (as_tableheader kwargs t0) t0) by done.
    by destruct (names_group column t0).
Qed.

(** X9 on the example with the header row labelled like group [B]: the
    group pass, run last, takes the header size 12 away again. *)
Lemma header_and_group_formatting_order_witness :
  let ax := Example.axes_of [Example.tick "A"; Example.tick "x1"; Example.tick "b "] in
  let kwargs : gmap string Py.val := <["tableheader_fontsize" := VInt 12]> ∅ in
  exists ax1 ax2,
    (a ← format_grouplabels Example.rows (Some "group") ax kwargs;
     format_tableheader (Some ["N"]) None a kwargs) = Ok ax1
    /\ (a ← format_tableheader (Some ["N"]) None ax kwargs;
        format_grouplabels Example.rows (Some "group") a kwargs) = Ok ax2
    /\ List.map Mpl.get_fontsize (Mpl.get_yticklabels ax1)
       = [VInt 10; VInt 9; VInt 12]
    /\ List.map Mpl.get_fontsize (Mpl.get_yticklabels ax2)
       = [VInt 10; VInt 9; VInt 10].
Proof.
  intros ax kwargs.
  destruct (header_and_group_formatting_order Example.rows "group"
              (Some ["N"]) None ax kwargs
              [VStr "A"; VNone; VNone; VStr "B"; VNone]
              [Example.tick "A"; Example.tick "x1"] (Example.tick "b "))
    as [H1 H2]; try reflexivity.
  eexists _, _. split; [exact H1|]. split; [exact H2|].
  split; reflexivity.
Defined.

(** ** More on the right-hand p-value column *)

Lemma pval_loop_keyerror (yticklabel : string) (df : Frame.t)
    (st : Q * Mpl.axes) :
  ~ Forall (has_pval_columns yticklabel) df ->
  Py.for_each df (pval_body yticklabel) st = Raise KeyError.
Proof.
  revert st. induction df as [|row df IH]; intros st Hno.
  - destruct Hno. constructor.
  - simpl. unfold pval_body at 1, Frame.get.
    destruct (Frame.cells row !! yticklabel) as [l|] eqn:Hl; [|done].
    destruct (Frame.cells row !! "formatted_pval") as [p|] eqn:Hp; [|done].
    simpl. apply IH. intros Hall. apply Hno. constructor; [|done].
    split; eauto.
Qed.

(** X10.  With a p-value column, [draw_pval_right] returns axes exactly
    when every row has the label column and the [formatted_pval] column;
    when a row lacks one of them it raises [KeyError]. *)
Theorem draw_pval_right_missing_column (dataframe : Frame.t)
    (pval : option string) (annoteheaders : option (list string))
    (yticklabel : string) (pad : Q) (ax : Mpl.axes)
    (kwargs : gmap string Py.val) :
  pval <> None ->
  (Forall (has_pval_columns yticklabel) dataframe ->
   exists ax',
     draw_pval_right dataframe pval annoteheaders yticklabel pad ax kwargs
     = Ok ax')
  /\ (~ Forall (has_pval_columns yticklabel) dataframe ->
      draw_pval_right dataframe pval annoteheaders yticklabel pad ax kwargs
      = Raise KeyError).
Proof.
  intros Hpval. split.
  - intros Hdf.
    destruct (draw_pval_right_run dataframe pval annoteheaders yticklabel pad
                ax kwargs Hpval Hdf) as (row_texts & _ & ->). eauto.
  - intros Hno. unfold draw_pval_right. destruct pval as [pv|]; [|done].
    simpl. by rewrite pval_loop_keyerror.
Qed.

Lemma draw_pval_right_missing_column_witness :
  draw_pval_right Example.rows (Some "pval") None "label" 0 Example.ax ∅
  = Raise KeyError.
Proof.
  apply (draw_pval_right_missing_column Example.rows (Some "pval") None
           "label" 0 Example.ax ∅); [discriminate|].
  intros H. apply Forall_inv in H. destruct H as [[v Hv] _].
  vm_compute in Hv. discriminate Hv.
Defined.

(** X11.  [draw_pval_right] only adds texts: one a row, and one more for
    the title when a title is asked for.  The limits, the tick labels,
    the bands and the rest of the axes stay as they are.  Without a
    p-value column it returns the axes as they are, title or not. *)
Theorem draw_pval_right_only_adds_texts (dataframe : Frame.t)
    (pval : option string) (annoteheaders : option (list string))
    (yticklabel : string) (pad : Q) (ax : Mpl.axes)
    (kwargs : gmap string Py.val) :
  Forall (has_pval_columns yticklabel) dataframe ->
  exists added,
    draw_pval_right dataframe pval annoteheaders yticklabel pad ax kwargs
    = Ok (with_texts ax added)
    /\ List.length added
       = (if is_not_None pval
          then (List.length dataframe
                + if bool_decide (Py.kwargs_get kwargs "pval_title"
                                    (VStr "P-value") <> VNone)
                  then 1 else 0)%nat
          else 0%nat).
Proof.
  intros Hdf. destruct pval as [pv|].
  - destruct (draw_pval_right_run dataframe (Some pv) annoteheaders yticklabel
                pad ax kwargs) as (row_texts & Hrows & ->); [done|done|].
    eexists. split; [done|]. rewrite length_app.
    apply Forall2_length in Hrows. rewrite <- Hrows. simpl.
    by case_bool_decide.
  - exists []. by rewrite with_texts_nil.
Qed.

Lemma draw_pval_right_only_adds_texts_witness :
  exists added,
    draw_pval_right Example.rows (Some "pval") None "yticklabel" 0
      Example.ax ∅ = Ok (with_texts Example.ax added)
    /\ List.length added = 6%nat.
Proof.
  destruct (draw_pval_right_only_adds_texts Example.rows (Some "pval") None
              "yticklabel" 0 Example.ax ∅) as (added & H & Hlen).
  - repeat constructor; by eexists.
  - exists added. split; [exact H|exact Hlen].
Defined.

(** X12.  For a table without rows the loop never sets [pad], and the
    title is drawn at the x position the [pad] argument gives: with a
    p-value column and a title, two different [pad] arguments give
    different axes. *)
Theorem draw_pval_right_no_rows_uses_pad (pval : option string)
    (annoteheaders : option (list string)) (yticklabel : string)
    (pad1 pad2 : Q) (ax : Mpl.axes) (kwargs : gmap string Py.val) :
  pval <> None ->
  Py.kwargs_get kwargs "pval_title" (VStr "P-value") <> VNone ->
  (exists ax' title,
     draw_pval_right [] pval annoteheaders yticklabel pad1 ax kwargs = Ok ax'
     /\ Mpl.texts ax' = (Mpl.texts ax ++ [title])%list
     /\ Mpl.a_x title = pad1)
  /\ (pad1 <> pad2 ->
      draw_pval_right [] pval annoteheaders yticklabel pad1 ax kwargs
      <> draw_pval_right [] pval annoteheaders yticklabel pad2 ax kwargs).
Proof.
  intros Hpval Htitle.
  assert (Hrun : forall pad, exists title,
    draw_pval_right [] pval annoteheaders yticklabel pad ax kwargs
    = Ok (with_texts ax [title]) /\ Mpl.a_x title = pad).
  { intros pad.
    destruct (draw_pval_right_run [] pval annoteheaders yticklabel pad ax
                kwargs Hpval) as (row_texts & Hrows & ->); [constructor|].
    inversion Hrows; subst. rewrite bool_decide_eq_true_2 by done.
    eexists. split; [done|]. by destruct annoteheaders. }
  split.
  - destruct (Hrun pad1) as (title & -> & Hx). by exists (with_texts ax [title]), title.
  - intros Hne. destruct (Hrun pad1) as (t1 & -> & Hx1).
    destruct (Hrun pad2) as (t2 & -> & Hx2).
    intros [= Heq]. apply app_inv_head in Heq. injection Heq as Heq.
    apply Hne. by rewrite <- Hx1, <- Hx2, Heq.
Qed.

Lemma draw_pval_right_no_rows_uses_pad_witness :
  draw_pval_right [] (Some "pval") None "yticklabel" 0 Example.ax ∅
  <> draw_pval_right [] (Some "pval") None "yticklabel" 250 Example.ax ∅.
Proof.
  apply (draw_pval_right_no_rows_uses_pad (Some "pval") None "yticklabel"
           0 250 Example.ax ∅); discriminate.
Defined.

(** X13.  The texts of [draw_pval_right] are at the upper x limit times
    1.05.  That is to the right of the axis only for a positive upper
    limit: for a negative one the texts are to the left of it, inside the
    plot, and for zero on it. *)
Theorem draw_pval_right_side_of_axis (dataframe : Frame.t)
    (pval : option string) (annoteheaders : option (list string))
    (yticklabel : string) (pad : Q) (ax : Mpl.axes)
    (kwargs : gmap string Py.val) :
  pval <> None ->
  dataframe <> [] ->
  Forall (has_pval_columns yticklabel) dataframe ->
  exists added,
    draw_pval_right dataframe pval annoteheaders yticklabel pad ax kwargs
    = Ok (with_texts ax added)
    /\ Forall (fun a =>
                 let upper := (Mpl.get_xlim ax).2 in
                 Mpl.a_x a = (upper * (105 # 100))%Q
                 /\ (0 < upper -> upper < Mpl.a_x a)%Q
                 /\ (upper < 0 -> Mpl.a_x a < upper)%Q
                 /\ (upper == 0 -> Mpl.a_x a == upper)%Q) added.
Proof.
  intros Hpval Hne Hdf.
  destruct (draw_pval_right_run dataframe pval annoteheaders yticklabel pad
              ax kwargs Hpval Hdf) as (row_texts & Hrows & ->).
  eexists. split; [done|].
  set (upper := (Mpl.get_xlim ax).2).
  assert (Hside : forall x : Q, x = (upper * (105 # 100))%Q ->
            x = (upper * (105 # 100))%Q
            /\ (0 < upper -> upper < x)%Q
            /\ (upper < 0 -> x < upper)%Q
            /\ (upper == 0 -> x == upper)%Q).
  { intros x ->. split; [done|]. destruct upper as [n d].
    unfold Qlt, Qeq. simpl. repeat split; intros; nia. }
  apply Forall_app. split.
  - clear Hne Hdf. induction Hrows as [|row a df rt (l & p & _ & _ & ->) _ IH];
      constructor; [|done].
    by apply Hside.
  - case_bool_decide; [|constructor]. constructor; [|constructor].
    apply Hside. destruct dataframe; [done|]. by destruct annoteheaders.
Qed.

Lemma draw_pval_right_side_of_axis_witness :
  exists added,
    draw_pval_right Example.rows (Some "pval") None "yticklabel" 0
      Example.ax ∅ = Ok (with_texts Example.ax added)
    /\ Forall (fun a => (2 < Mpl.a_x a)%Q) added.
Proof.
  destruct (draw_pval_right_side_of_axis Example.rows (Some "pval") None
              "yticklabel" 0 Example.ax ∅) as (added & H & Hall).
  - discriminate.
  - discriminate.
  - repeat constructor; by eexists.
  - exists added. split; [exact H|].
    eapply Forall_impl; [exact Hall|].
    intros a (_ & Hpos & _). apply Hpos. reflexivity.
Defined.

(** ** More on the right-hand second labels *)

Lemma ylabel2_loop_keyerror (sz w : Py.val) (group_row_ix : Z)
    (df : Frame.t) (ax : Mpl.axes) :
  ~ Forall has_ylabel2_columns df ->
  Py.for_each df (ylabel2_body sz w group_row_ix) ax = Raise KeyError.
Proof.
  revert ax. induction df as [|row df IH]; intros ax Hno.
  - destruct Hno. constructor.
  - simpl. unfold ylabel2_body at 1, Frame.get.
    destruct (Frame.cells row !! "yticklabel") as [l|] eqn:Hl; [|done].
    destruct (Frame.cells row !! "yticklabel2") as [l2|] eqn:Hl2; [|done].
    simpl. assert (Hrest : ~ Forall has_ylabel2_columns df).
    { intros Hall. apply Hno. constructor; [|done]. split; eauto. }
    case_bool_decide; simpl; by apply IH.
Qed.

(** X14.  [draw_ylabel2] only adds texts, one a row in the order of the
    rows, at the upper x limit times 1.05, left-aligned and vertically
    centred at the row's tick, in monospace.  The text is the row's
    second label as the table has it.  The group-label weight and size go
    to the rows whose index label is the number of rows less one; the
    other rows get neither.  When a row lacks one of the two label
    columns the function raises [KeyError]. *)
Theorem draw_ylabel2_texts (dataframe : Frame.t) (ax : Mpl.axes)
    (kwargs : gmap string Py.val) :
  (Forall has_ylabel2_columns dataframe ->
   exists row_texts,
     draw_ylabel2 dataframe ax kwargs = Ok (with_texts ax row_texts)
     /\ Forall2 (ylabel2_text_of kwargs (Z.of_nat (List.length dataframe) - 1)
                   (Mpl.get_xlim ax).2)
          dataframe row_texts)
  /\ (~ Forall has_ylabel2_columns dataframe ->
      draw_ylabel2 dataframe ax kwargs = Raise KeyError).
Proof.
  split.
  - apply draw_ylabel2_rows.
  - intros Hno. unfold draw_ylabel2. by apply ylabel2_loop_keyerror.
Qed.

Lemma draw_ylabel2_texts_witness :
  exists row_texts,
    draw_ylabel2 Example.rows Example.ax ∅
    = Ok (with_texts Example.ax row_texts)
    /\ List.length row_texts = 5%nat.
Proof.
  destruct (proj1 (draw_ylabel2_texts Example.rows Example.ax ∅))
    as (row_texts & H & Hrows).
  - repeat constructor; by eexists.
  - exists row_texts. split; [exact H|].
    apply Forall2_length in Hrows. by rewrite <- Hrows.
Defined.

(** X15.  With the default index, where the index label of a row is its
    position, [draw_ylabel2] gives the group-label weight and size to the
    text of the last row and to no other; with an index in which no label
    is the number of rows less one, to none. *)
Theorem draw_ylabel2_bold_row (dataframe : Frame.t) (ax : Mpl.axes)
    (kwargs : gmap string Py.val) :
  Forall has_ylabel2_columns dataframe ->
  exists row_texts,
    draw_ylabel2 dataframe ax kwargs = Ok (with_texts ax row_texts)
    /\ List.length row_texts = List.length dataframe
    /\ ((forall i row, dataframe !! i = Some row -> Frame.ix row = Z.of_nat i) ->
        forall i a, row_texts !! i = Some a ->
          Mpl.a_fontweight a
          = (if bool_decide (S i = List.length dataframe)
             then Some (Py.kwargs_get kwargs "grouplab_fontweight" (VStr "bold"))
             else None)
          /\ Mpl.a_size a
             = (if bool_decide (S i = List.length dataframe)
                then Some (Py.kwargs_get kwargs "grouplab_size" (VInt 10))
                else None))
    /\ (Forall (fun row => Frame.ix row <> Z.of_nat (List.length dataframe) - 1)
          dataframe ->
        Forall (fun a => Mpl.a_fontweight a = None /\ Mpl.a_size a = None)
          row_texts).
Proof.
  intros Hdf.
  destruct (draw_ylabel2_rows dataframe ax kwargs Hdf) as (row_texts & H & Hrows).
  exists row_texts. split; [done|].
  split; [symmetry; by eapply Forall2_length|]. split.
  - intros Hix i a Ha.
    destruct (Forall2_lookup_r _ _ _ _ _ Hrows Ha) as (row & Hrow & Hof).
    destruct Hof as (l & l2 & _ & _ & _ & _ & _ & _ & _ & _ & Hlast & Hother).
    specialize (Hix i row Hrow).
    case_bool_decide as Hi.
    + apply Hlast. lia.
    + apply Hother. lia.
  - intros Hnone. clear H.
    generalize dependent (Z.of_nat (List.length dataframe) - 1).
    intros g Hrows Hnone.
    induction Hrows as [|row a df rt Hof _ IH]; [constructor|].
    apply Forall_cons in Hnone as [Hrow Hnone].
    apply Forall_cons in Hdf as [_ Hdf].
    constructor; [|by apply IH].
    destruct Hof as (l & l2 & _ & _ & _ & _ & _ & _ & _ & _ & _ & Hother).
    by apply Hother.
Qed.

Lemma draw_ylabel2_bold_row_witness :
  exists row_texts,
    draw_ylabel2 Example.rows Example.ax ∅
    = Ok (with_texts Example.ax row_texts)
    /\ List.map Mpl.a_fontweight row_texts
       = [None; None; None; None; Some (VStr "bold")].
Proof.
  destruct (draw_ylabel2_bold_row Example.rows Example.ax ∅)
    as (row_texts & H & Hlen & Hix & _).
  - repeat constructor; by eexists.
  - exists row_texts. split; [exact H|].
    assert (Hdef : forall i row, Example.rows !! i = Some row ->
                                 Frame.ix row = Z.of_nat i).
    { intros [|[|[|[|[|i]]]]] row Hrow; simpl in Hrow; try discriminate Hrow;
        injection Hrow as <-; reflexivity. }
    specialize (Hix Hdef).
    destruct row_texts as [|a0 [|a1 [|a2 [|a3 [|a4 [|a5 rest]]]]]];
      simpl in Hlen; try discriminate Hlen.
    simpl.
    rewrite (proj1 (Hix 0%nat a0 eq_refl)), (proj1 (Hix 1%nat a1 eq_refl)),
      (proj1 (Hix 2%nat a2 eq_refl)), (proj1 (Hix 3%nat a3 eq_refl)),
      (proj1 (Hix 4%nat a4 eq_refl)).
    reflexivity.
Defined.

(** ** More on the label layout *)

(** X16.  When a row lacks the label column, [right_flush_yticklabels]
    raises [KeyError], whatever the ticks and [flush] are. *)
Theorem right_flush_yticklabels_missing_column (renderer : Mpl.label -> Q)
    (dataframe : Frame.t) (yticklabel : string) (flush : bool)
    (ax : Mpl.axes) (kwargs : gmap string Py.val) :
  ~ Forall (fun r => is_Some (Frame.cells r !! yticklabel)) dataframe ->
  right_flush_yticklabels renderer dataframe yticklabel flush ax kwargs
  = Raise KeyError.
Proof.
  intros Hno. unfold right_flush_yticklabels.
  by rewrite (col_keyerror _ _ Hno).
Qed.

Lemma right_flush_yticklabels_missing_column_witness :
  right_flush_yticklabels Example.renderer Example.rows "label" true
    Example.ax ∅ = Raise KeyError.
Proof.
  apply (right_flush_yticklabels_missing_column Example.renderer Example.rows
           "label" true Example.ax ∅).
  intros H. apply Forall_inv in H. destruct H as [v Hv].
  vm_compute in Hv. discriminate Hv.
Defined.

Lemma relabel_renderer (renderer : Mpl.label -> Q) (ticks : list Mpl.label)
    (labels : list Py.val) (fontfamily : Py.val) (ha ha' : string) :
  (forall s h h' ff w sz,
     renderer (Mpl.Label s h ff w sz) = renderer (Mpl.Label s h' ff w sz)) ->
  List.map renderer (Mpl.relabel ticks labels fontfamily ha)
  = List.map renderer (Mpl.relabel ticks labels fontfamily ha').
Proof.
  intros Hr. revert labels.
  induction ticks as [|t ticks IH]; intros labels; simpl; [done|].
  f_equal; [apply Hr|apply IH].
Qed.

(** X17.  When the measured width of a label does not depend on its
    horizontal alignment, [right_flush_yticklabels] returns the same pad
    with and without [flush], or fails in both cases alike: [flush]
    changes the alignment and the tick padding, not the measurement. *)
Theorem right_flush_yticklabels_pad_same (renderer : Mpl.label -> Q)
    (dataframe : Frame.t) (yticklabel : string)
    (ax : Mpl.axes) (kwargs : gmap string Py.val) :
  (forall s h h' ff w sz,
     renderer (Mpl.Label s h ff w sz) = renderer (Mpl.Label s h' ff w sz)) ->
  fst <$> right_flush_yticklabels renderer dataframe yticklabel true ax kwargs
  = fst <$> right_flush_yticklabels renderer dataframe yticklabel false ax kwargs.
Proof.
  intros Hr. unfold right_flush_yticklabels.
  destruct (Frame.col dataframe yticklabel) as [labels|e]; [|done]. simpl.
  rewrite (relabel_renderer renderer _ _ _ "left" "right" Hr).
  by destruct (Py.max _).
Qed.

Lemma right_flush_yticklabels_pad_same_witness :
  fst <$> right_flush_yticklabels Example.renderer Example.rows "yticklabel"
            true Example.ax ∅
  = fst <$> right_flush_yticklabels Example.renderer Example.rows "yticklabel"
              false Example.ax ∅.
Proof.
  apply (right_flush_yticklabels_pad_same Example.renderer Example.rows
           "yticklabel" Example.ax ∅).
  reflexivity.
Defined.

(** ** The x axis *)

Lemma num_col_ok (df : Num.frame) (column : string) :
  Forall (fun r => is_Some (r !! column)) df ->
  exists vs,
    Num.col df column = Ok vs
    /\ Forall2 (fun r v => r !! column = Some v) df vs.
Proof.
  induction 1 as [|r df [v Hv] _ (vs & IH & Hvs)]; simpl.
  - exists []. split; [done|constructor].
  - rewrite Hv, IH. simpl. exists (v :: vs). split; [done|by constructor].
Qed.

Lemma num_col_keyerror (df : Num.frame) (column : string) :
  ~ Forall (fun r => is_Some (r !! column)) df ->
  Num.col df column = Raise KeyError.
Proof.
  induction df as [|r df IH]; intros Hno; simpl.
  - destruct Hno. constructor.
  - destruct (r !! column) as [v|] eqn:Hv; [|done].
    rewrite IH; [done|]. intros Hall. apply Hno. constructor; [eauto|done].
Qed.

Lemma in_numbers (l : list (option Q)) (q : Q) :
  In q (Num.numbers l) <-> In (Some q) l.
Proof.
  unfold Num.numbers. induction l as [|[x|] l IH]; simpl; [done| |].
  - rewrite IH. split; intros [H|H]; auto; left; congruence.
  - rewrite IH. split; [auto|]. intros [H|H]; [done|auto].
Qed.



Lemma num_max_spec (l : list (option Q)) (q : Q) :
  In (Some q) l ->
  exists m, Num.max l = Some m /\ In (Some m) l
            /\ (forall x, In (Some x) l -> (x <= m)%Q).
Proof.
  intros Hq. apply in_numbers in Hq. unfold Num.max.
  assert (Hn : forall x, In (Some x) l <-> In x (Num.numbers l))
    by (intros x; symmetry; apply in_numbers).
  destruct (Num.numbers l) as [|q0 l'] eqn:Hnum; [done|].
  destruct (max_fold_spec l' q0) as (Hin & Hle & Hall).
  eexists. split; [done|]. split.
  - apply Hn. destruct Hin as [->|Hin]; [by left|by right].
  - intros x Hx. apply Hn in Hx as [<-|Hx]; [done|by apply Hall].
Qed.

Lemma num_none (l : list (option Q)) :
  Forall (fun v => v = None) l -> Num.min l = None /\ Num.max l = None.
Proof.
  intros Hall. unfold Num.min, Num.max.
  assert (Num.numbers l = []) as ->; [|done].
  unfold Num.numbers. induction Hall as [|v l -> _ IH]; simpl; done.
Qed.

Lemma col_cells (df : Num.frame) (column : string) (vs : list (option Q)) :
  Forall2 (fun r v => r !! column = Some v) df vs ->
  forall v, In v vs <-> exists r, In r df /\ r !! column = Some v.
Proof.
  induction 1 as [|r v0 df vs Hr _ IH]; intros v; simpl.
  - split; [done|]. by intros (r & [] & _).
  - rewrite IH. split.
    + intros [<-|(r' & Hin & Hv)]; [exists r; auto|exists r'; auto].
    + intros (r' & [<-|Hin] & Hv); [left; congruence|right; eauto].
Qed.

Lemma col_all_nan (df : Num.frame) (column : string)
    (vs : list (option Q)) :
  Forall2 (fun r v => r !! column = Some v) df vs ->
  Forall (fun r => r !! column = Some None) df ->
  Forall (fun v => v = None) vs.
Proof.
  induction 1 as [|r v df vs Hr _ IH]; intros Hall; [constructor|].
  apply Forall_cons in Hall as [Hr' Hall].
  constructor; [congruence|by apply IH].
Qed.



(** X19.  [format_xticks] raises [KeyError] when a row lacks one of the
    two limit columns, and [ValueError], from [set_xlim], when the columns
    are there and one of them holds no number: a table without rows, or a
    column of [NaN] only.  In neither case are axes returned. *)
Theorem format_xticks_errors {T} (dataframe : Num.frame) (ll hl : string)
    (xticks : option (list T)) (c : Chart.t T) (kwargs : gmap string Py.val) :
  (~ Forall (fun r => is_Some (r !! ll) /\ is_Some (r !! hl)) dataframe ->
   format_xticks dataframe ll hl xticks c kwargs = Raise KeyError)
  /\ (Forall (fun r => is_Some (r !! ll) /\ is_Some (r !! hl)) dataframe ->
      Forall (fun r => r !! ll = Some None) dataframe
      \/ Forall (fun r => r !! hl = Some None) dataframe ->
      format_xticks dataframe ll hl xticks c kwargs = Raise ValueError).
Proof.
  split.
  - intros Hno. unfold format_xticks.
    destruct (decide (Forall (fun r => is_Some (r !! ll)) dataframe))
      as [Hll|Hll].
    + destruct (num_col_ok _ _ Hll) as (lows & -> & _). simpl.
      rewrite (num_col_keyerror dataframe hl); [done|].
      intros Hhl. apply Hno. apply Forall_and. done.
    + by rewrite (num_col_keyerror dataframe ll Hll).
  - intros Hboth Hnan. apply Forall_and in Hboth as [Hll Hhl].
    destruct (num_col_ok _ _ Hll) as (lows & Hlows & Hlc).
    destruct (num_col_ok _ _ Hhl) as (highs & Hhighs & Hhc).
    unfold format_xticks. rewrite Hlows, Hhighs. simpl.
    destruct Hnan as [Hnan|Hnan].
    + destruct (num_none lows (col_all_nan _ _ _ Hlc Hnan)) as [-> _]. done.
    + destruct (num_none highs (col_all_nan _ _ _ Hhc Hnan)) as [_ ->].
      by destruct (Num.min lows).
Qed.

Lemma format_xticks_errors_witness :
  format_xticks example_limits "ll" "upper" (Some [-1; 0; 1]) example_chart ∅
  = Raise KeyError
  /\ format_xticks [] "ll" "hl" (Some [-1; 0; 1]) example_chart ∅
     = Raise ValueError.
Proof.
  split.
  - apply (proj1 (format_xticks_errors example_limits "ll" "upper"
                    (Some [-1; 0; 1]) example_chart ∅)).
    intros H. apply Forall_inv in H. destruct H as [_ [v Hv]].
    vm_compute in Hv. discriminate Hv.
  - apply (proj2 (format_xticks_errors [] "ll" "hl" (Some [-1; 0; 1])
                    example_chart ∅)); [constructor|left; constructor].
Defined.

(** X20.  [format_xticks] is idempotent, and [draw_xticks] with the same
    tick labels and settings adds nothing to its result. *)
Theorem format_xticks_idempotent {T} (dataframe : Num.frame) (ll hl : string)
    (xticks : option (list T)) (c c' : Chart.t T)
    (kwargs : gmap string Py.val) :
  format_xticks dataframe ll hl xticks c kwargs = Ok c' ->
  format_xticks dataframe ll hl xticks c' kwargs = Ok c'
  /\ draw_xticks xticks c' kwargs = c'.
Proof.
  unfold format_xticks, draw_xticks.
  destruct (Num.col dataframe ll) as [lows|]; [|done]. simpl.
  destruct (Num.col dataframe hl) as [highs|]; [|done]. simpl.
  destruct (Num.min lows) as [lo|]; [|done].
  destruct (Num.max highs) as [hi|]; [|done]. simpl.
  intros [= <-]. by destruct xticks.
Qed.

Lemma format_xticks_idempotent_witness :
  exists c',
    format_xticks example_limits "ll" "hl" (Some [-1; 0; 1]) example_chart ∅
    = Ok c'
    /\ format_xticks example_limits "ll" "hl" (Some [-1; 0; 1]) c' ∅ = Ok c'
    /\ draw_xticks (Some [-1; 0; 1]) c' ∅ = c'.
Proof.
  eexists. split; [vm_compute; reflexivity|].
  apply (format_xticks_idempotent example_limits "ll" "hl" (Some [-1; 0; 1])
           example_chart).
  vm_compute. reflexivity.
Defined.

Lemma num_max_some (l : list (option Q)) (m : Q) :
  Num.max l = Some m ->
  In (Some m) l /\ (forall x, In (Some x) l -> (x <= m)%Q).
Proof.
  intros Hm.
  assert (exists q, In (Some q) l) as [q Hq].
  { unfold Num.max in Hm. destruct (Num.numbers l) as [|q l'] eqn:Hn; [done|].
    exists q. apply in_numbers. rewrite Hn. by left. }
  destruct (num_max_spec l q Hq) as (m' & Hm' & Hin & Hle).
  assert (m' = m) as -> by congruence. done.
Qed.

Lemma num_col_cells (df : Num.frame) (column : string)
    (vs : list (option Q)) :
  Num.col df column = Ok vs ->
  forall v, In v vs <-> exists r, In r df /\ r !! column = Some v.
Proof.
  intros Hcol.
  destruct (decide (Forall (fun r => is_Some (r !! column)) df)) as [H|H].
  - destruct (num_col_ok _ _ H) as (vs' & Hvs' & Hc).
    assert (vs' = vs) as -> by congruence. by apply col_cells.
  - rewrite (num_col_keyerror _ _ H) in Hcol. done.
Qed.

(** X21.  After [format_xticks] has set limits that form a proper
    interval, [draw_pval_right] on a table with rows draws every text at
    1.05 times the greatest upper limit of the table, which is the upper
    limit of some row and is not exceeded by any; when that limit is
    positive, the texts are to the right of every row's upper limit. *)
Theorem pvalues_right_of_all_intervals {T} (limits : Num.frame)
    (ll hl : string) (xticks : option (list T)) (c c' : Chart.t T)
    (dataframe : Frame.t) (pval : option string)
    (annoteheaders : option (list string)) (yticklabel : string) (pad : Q)
    (kwargs : gmap string Py.val) :
  format_xticks limits ll hl xticks c kwargs = Ok c' ->
  ((Mpl.get_xlim (Chart.ax c')).1 < (Mpl.get_xlim (Chart.ax c')).2)%Q ->
  pval <> None ->
  dataframe <> [] ->
  Forall (has_pval_columns yticklabel) dataframe ->
  exists lo hi added,
    Mpl.get_xlim (Chart.ax c') = (lo, hi)
    /\ (exists r, In r limits /\ r !! hl = Some (Some hi))
    /\ (forall r h, In r limits -> r !! hl = Some (Some h) -> (h <= hi)%Q)
    /\ draw_pval_right dataframe pval annoteheaders yticklabel pad
         (Chart.ax c') kwargs = Ok (with_texts (Chart.ax c') added)
    /\ (List.length dataframe <= List.length added)%nat
    /\ Forall (fun a => Mpl.a_x a = (hi * (105 # 100))%Q) added
    /\ ((0 < hi)%Q ->
        Forall (fun a =>
                  forall r h, In r limits -> r !! hl = Some (Some h) ->
                              (h < Mpl.a_x a)%Q) added).
Proof.
  intros Hfmt _ Hpval Hne Hdf.
  assert (Hlim : exists lo hi,
            Mpl.get_xlim (Chart.ax c') = (lo, hi)
            /\ (exists r, In r limits /\ r !! hl = Some (Some hi))
            /\ (forall r h, In r limits -> r !! hl = Some (Some h) ->
                            (h <= hi)%Q)).
  { revert Hfmt. unfold format_xticks.
    destruct (Num.col limits ll) as [lows|] eqn:Hlows; [|done]. simpl.
    destruct (Num.col limits hl) as [highs|] eqn:Hhighs; [|done]. simpl.
    destruct (Num.min lows) as [lo|]; [|done].
    destruct (Num.max highs) as [hi|] eqn:Hmax; [|done]. simpl.
    intros [= <-]. exists lo, hi.
    destruct (num_max_some highs hi Hmax) as [Hin Hle].
    pose proof (num_col_cells _ _ _ Hhighs) as Hcells.
    split; [by destruct xticks|]. split.
    - by apply Hcells.
    - intros r h Hr Hh. apply Hle, Hcells. eauto. }
  destruct Hlim as (lo & hi & Hxlim & Hatt & Hle).
  destruct (draw_pval_right_side_of_axis dataframe pval annoteheaders
              yticklabel pad (Chart.ax c') kwargs Hpval Hne Hdf)
    as (added & Hrun & Hall).
  destruct (draw_pval_right_only_adds_texts dataframe pval annoteheaders
              yticklabel pad (Chart.ax c') kwargs Hdf)
    as (added' & Hrun' & Hlen).
  assert (added' = added) as ->.
  { rewrite Hrun in Hrun'. injection Hrun' as Heq.
    by apply app_inv_head in Heq. }
  rewrite Hxlim in Hall. simpl in Hall.
  exists lo, hi, added. split; [done|]. split; [done|]. split; [done|].
  split; [done|].
  split. { rewrite Hlen. destruct pval; [simpl; lia|done]. }
  split.
  - eapply Forall_impl; [exact Hall|]. by intros a (Hx & _).
  - intros Hpos. eapply Forall_impl; [exact Hall|].
    intros a (_ & Hright & _) r h Hr Hh.
    eapply Qle_lt_trans; [by eapply Hle|by apply Hright].
Qed.

Lemma pvalues_right_of_all_intervals_witness :
  exists c' added,
    format_xticks example_limits "ll" "hl" (Some [-1; 0; 1]) example_chart ∅
    = Ok c'
    /\ draw_pval_right Example.rows (Some "pval") None "yticklabel" 0
         (Chart.ax c') ∅ = Ok (with_texts (Chart.ax c') added)
    /\ Forall (fun a => Mpl.a_x a = ((7 # 10) * (105 # 100))%Q) added.
Proof.
  eexists.
  assert (Hfmt : format_xticks example_limits "ll" "hl" (Some [-1; 0; 1])
                   example_chart ∅
                 = Ok (Chart.Chart
                         (Mpl.Axes ((-3 # 10)%Q, (7 # 10)%Q)
                            (Mpl.get_ylim Example.ax)
                            (Mpl.get_yticklabels Example.ax)
                            (Mpl.tick_pad Example.ax)
                            (Mpl.get_ylabel Example.ax) [] [])
                         (Some ([-1; 0; 1], VInt 9)) Chart.AutoLocator (VInt 9)))
    by (vm_compute; reflexivity).
  destruct (pvalues_right_of_all_intervals example_limits "ll" "hl"
              (Some [-1; 0; 1]) example_chart _ Example.rows (Some "pval")
              None "yticklabel" 0 ∅ Hfmt)
    as (lo & hi & added & Hxlim & _ & _ & Hrun & _ & Hall & _).
  - reflexivity.
  - discriminate.
  - discriminate.
  - repeat constructor; by eexists.
  - exists added. split; [exact Hfmt|]. split; [exact Hrun|].
    simpl in Hxlim. injection Hxlim as <- <-. exact Hall.
Defined.
